(** * A shallow embedding of [app.py]: keyword counters and the chart snapshot

    The development follows the layout of the Python file: the text
    primitives the code calls on [str] values, the two SQLite tables and the
    statements run against them, the request-local connection with its
    implicit transaction, the fetchers, and the route handlers.

    Conventions.
    - A Python [str] is a list of Unicode code points ([N]); literals of the
      source are written [py "..."] and decoded from the UTF-8 bytes of this
      file, as the interpreter decodes the bytes of [app.py].
    - Python integers and the INTEGER columns are mathematical integers
      ([Z]).  Limits of the runtime and of the storage engine (memory, the
      64-bit INTEGER storage class, the interpreter's cap on the length of
      decimal literals given to [int], the longest pattern of LIKE) are not
      part of the model: the statements of the theorems name the domains
      within them ([text], [storable], [bindable], [like_text]).
    - A Python call either returns or raises: [pyresult].  Handlers run in
      the monad [M], which threads the world (database file, request-local
      connection, trace of statements and HTTP requests) also through a
      raise.
    - The route [/] only renders a template and is left out; of [/ranking],
      which only reads, the query is modelled ([top_keywords]). *)

From Stdlib Require Import String Ascii DecimalString.
From stdpp Require Import base tactics option list numbers sorting lexico.

Local Open Scope Z_scope.

(** ** Text *)

Definition char := N.
Definition str := list char.

(** UTF-8 decoding of a literal of the source file. *)
Fixpoint utf8_decode_aux (need : nat) (acc : N) (bs : list N) : str :=
  match bs with
  | [] => []
  | b :: bs' =>
    match need with
    | O =>
      if (b <? 0x80)%N then b :: utf8_decode_aux 0 0%N bs'
      else if (b <? 0xE0)%N then utf8_decode_aux 1 (N.land b 0x1F) bs'
      else if (b <? 0xF0)%N then utf8_decode_aux 2 (N.land b 0x0F) bs'
      else utf8_decode_aux 3 (N.land b 0x07) bs'
    | S n =>
      let acc' := (acc * 64 + N.land b 0x3F)%N in
      match n with
      | O => acc' :: utf8_decode_aux 0 0%N bs'
      | S _ => utf8_decode_aux n acc' bs'
      end
    end
  end.

Fixpoint bytes_of_string (s : string) : list N :=
  match s with
  | EmptyString => []
  | String a s' => N_of_ascii a :: bytes_of_string s'
  end.

Definition py (s : string) : str := utf8_decode_aux 0 0%N (bytes_of_string s).

(** UTF-8 encoding of one code point ([str.encode], used by [quote]). *)
Definition utf8_encode_char (c : char) : list N :=
  if (c <? 0x80)%N then [c]
  else if (c <? 0x800)%N then
    [N.lor 0xC0 (N.shiftr c 6); N.lor 0x80 (N.land c 0x3F)]
  else if (c <? 0x10000)%N then
    [N.lor 0xE0 (N.shiftr c 12); N.lor 0x80 (N.land (N.shiftr c 6) 0x3F);
     N.lor 0x80 (N.land c 0x3F)]
  else
    [N.lor 0xF0 (N.shiftr c 18); N.lor 0x80 (N.land (N.shiftr c 12) 0x3F);
     N.lor 0x80 (N.land (N.shiftr c 6) 0x3F); N.lor 0x80 (N.land c 0x3F)].

Definition in_range (lo hi c : N) : bool := ((lo <=? c) && (c <=? hi))%N.

(** [str.isspace] on one character: the code points CPython treats as
    whitespace. *)
Definition isspace_char (c : char) : bool :=
  in_range 0x09 0x0D c || in_range 0x1C 0x20 c || (c =? 0x85)%N
  || (c =? 0xA0)%N || (c =? 0x1680)%N || in_range 0x2000 0x200A c
  || in_range 0x2028 0x2029 c || (c =? 0x202F)%N || (c =? 0x205F)%N
  || (c =? 0x3000)%N.

(** The code points of general category Nd come in runs of ten; each run is
    listed by its zero (Unicode 14). *)
Definition decimal_zeros : list N :=
  [0x30; 0x660; 0x6f0; 0x7c0; 0x966; 0x9e6; 0xa66; 0xae6; 0xb66; 0xbe6;
   0xc66; 0xce6; 0xd66; 0xde6; 0xe50; 0xed0; 0xf20; 0x1040; 0x1090; 0x17e0;
   0x1810; 0x1946; 0x19d0; 0x1a80; 0x1a90; 0x1b50; 0x1bb0; 0x1c40; 0x1c50;
   0xa620; 0xa8d0; 0xa900; 0xa9d0; 0xa9f0; 0xaa50; 0xabf0; 0xff10; 0x104a0;
   0x10d30; 0x11066; 0x110f0; 0x11136; 0x111d0; 0x112f0; 0x11450; 0x114d0;
   0x11650; 0x116c0; 0x11730; 0x118e0; 0x11950; 0x11c50; 0x11d50; 0x11da0;
   0x16a60; 0x16ac0; 0x16b50; 0x1d7ce; 0x1d7d8; 0x1d7e2; 0x1d7ec; 0x1d7f6;
   0x1e140; 0x1e2f0; 0x1e950; 0x1fbf0]%N.

(** [Py_UNICODE_TODECIMAL]: the value of a decimal digit, if it is one. *)
Fixpoint decimal_value_in (zeros : list N) (c : char) : option N :=
  match zeros with
  | [] => None
  | z :: zeros' =>
    if in_range z (z + 9) c then Some (c - z)%N else decimal_value_in zeros' c
  end.

Definition decimal_value (c : char) : option N := decimal_value_in decimal_zeros c.

Definition isdecimal_char (c : char) : bool :=
  match decimal_value c with Some _ => true | None => false end.

(** Characters with Numeric_Type=Digit that are not decimal: superscripts,
    subscripts, circled and parenthesised digits and the like. *)
Definition digit_only_ranges : list (N * N) :=
  [(178, 179); (185, 185); (4969, 4977); (6618, 6618); (8304, 8304);
   (8308, 8313); (8320, 8329); (9312, 9320); (9332, 9340); (9352, 9360);
   (9450, 9450); (9461, 9469); (9471, 9471); (10102, 10110); (10112, 10120);
   (10122, 10130); (68160, 68163); (69216, 69224); (69714, 69722);
   (127232, 127242)]%N.

(** [str.isdigit] on one character: Numeric_Type Decimal or Digit. *)
Definition isdigit_char (c : char) : bool :=
  isdecimal_char c || existsb (fun r => in_range r.1 r.2 c) digit_only_ranges.

(** [s.isdigit()]: every character is a digit and there is at least one. *)
Definition isdigit (s : str) : bool :=
  match s with
  | [] => false
  | _ :: _ => forallb isdigit_char s
  end.

Definition isdecimal (s : str) : bool :=
  match s with
  | [] => false
  | _ :: _ => forallb isdecimal_char s
  end.

Fixpoint lstrip_with (sp : char -> bool) (s : str) : str :=
  match s with
  | [] => []
  | c :: s' => if sp c then lstrip_with sp s' else s
  end.

Definition strip_with (sp : char -> bool) (s : str) : str :=
  rev (lstrip_with sp (rev (lstrip_with sp s))).

(** [s.strip()] *)
Definition strip (s : str) : str := strip_with isspace_char s.

(** ** Results of calls *)

Inductive exn :=
| ValueError (msg : str)
| AttributeError (msg : str)
| IntegrityError (msg : str)
| ProgrammingError (msg : str)
| RequestException (msg : str)
| ParserError (msg : str).

Definition exn_str (e : exn) : str :=
  match e with
  | ValueError m | AttributeError m | IntegrityError m | ProgrammingError m
  | RequestException m | ParserError m => m
  end.

Inductive pyresult (A : Type) :=
| Return (a : A)
| Raise (e : exn).
Arguments Return {A} a.
Arguments Raise {A} e.

(** ** [int(s)] in base ten *)

(** The text is first brought to ASCII: decimal digits of any script become
    ['0'..'9'], non-ASCII blanks become a space, anything else non-ASCII is
    not a numeral. *)
Definition int_ascii (c : char) : char :=
  if (c <? 128)%N then c
  else if isspace_char c then 32%N
  else match decimal_value c with
       | Some d => (48 + d)%N
       | None => 63%N
       end.

Definition c_isspace (c : char) : bool := in_range 9 13 c || (c =? 32)%N.

(** Digits, with single underscores allowed between two digits. *)
Fixpoint digits_value (l : str) (acc : N) (prev_digit : bool) : option N :=
  match l with
  | [] => if prev_digit then Some acc else None
  | c :: l' =>
    if in_range 48 57 c then digits_value l' (acc * 10 + (c - 48))%N true
    else if (c =? 95)%N then
      if prev_digit then digits_value l' acc false else None
    else None
  end.

Definition invalid_literal : str := py "invalid literal for int() with base 10".

Definition int (s : str) : pyresult Z :=
  let t := strip_with c_isspace (map int_ascii s) in
  let '(neg, body) :=
    match t with
    | c :: r =>
      if (c =? 45)%N then (true, r)
      else if (c =? 43)%N then (false, r)
      else (false, t)
    | [] => (false, t)
    end in
  match digits_value body 0%N false with
  | Some n => Return (if neg : bool then - Z.of_N n else Z.of_N n)
  | None => Raise (ValueError invalid_literal)
  end.


(** ** The database file

    [init_db] declares two tables; the handlers run against a file that has
    them.  Rows are kept in rowid order. *)

Record search_count_row := {
  sc_id : Z;
  sc_keyword : str;
  sc_count : Z
}.

Record melon_chart_data_row := {
  mc_id : Z;
  mc_ranking : Z;
  mc_title : str;
  mc_artist : str
}.

Record Database := {
  search_count : list search_count_row;
  melon_chart_data : list melon_chart_data_row;
  (* sqlite_sequence, kept for the AUTOINCREMENT columns *)
  seq_search_count : Z;
  seq_melon_chart_data : Z
}.

(** The empty file after [init_db]. *)
Definition init_db : Database :=
  {| search_count := []; melon_chart_data := [];
     seq_search_count := 0; seq_melon_chart_data := 0 |}.

(** AUTOINCREMENT: one more than the largest rowid ever used. *)
Definition next_id (seq : Z) (ids : list Z) : Z := 1 + foldr Z.max seq ids.

(** The constraints of the schema: [keyword TEXT UNIQUE] and
    [UNIQUE(ranking)]. *)
Definition schema_ok (d : Database) : Prop :=
  NoDup (map sc_keyword (search_count d)) /\
  NoDup (map mc_ranking (melon_chart_data d)).

(** A value in a result row ([sqlite3.Row]). *)
Inductive value :=
| VInt (z : Z)
| VText (s : str).

Definition sqlrow := list value.

(** What a cursor holds after [execute]. *)
Record cursor := {
  rowcount : Z;
  fetchall : list sqlrow
}.

(** *** LIKE *)

Definition percent : char := 37%N.
Definition underscore : char := 95%N.

(** Case is folded for ASCII letters only. *)
Definition sqlite3Tolower (c : char) : char :=
  if in_range 65 90 c then (c + 32)%N else c.

(** [text LIKE pattern] without ESCAPE: [%] stands for any run of characters,
    [_] for exactly one. *)
Fixpoint like (pattern text : str) : bool :=
  match pattern with
  | [] => match text with [] => true | _ :: _ => false end
  | c :: pattern' =>
    if (c =? percent)%N then
      (fix any_run (t : str) : bool :=
         like pattern' t ||
         match t with
         | [] => false
         | _ :: t' => any_run t'
         end) text
    else
      match text with
      | [] => false
      | d :: text' =>
        ((c =? underscore)%N || (sqlite3Tolower c =? sqlite3Tolower d)%N)
        && like pattern' text'
      end
  end.

(** *** ORDER BY, GROUP BY, LIMIT *)

Definition by_ranking (x y : melon_chart_data_row) : Prop :=
  mc_ranking x <= mc_ranking y.

Global Instance by_ranking_dec x y : Decision (by_ranking x y) :=
  Z_le_dec (mc_ranking x) (mc_ranking y).

(** [ORDER BY song_count DESC, artist ASC] on (artist, song_count) pairs;
    text is compared code point by code point. *)
Definition by_count_then_artist (x y : str * Z) : Prop :=
  x.2 > y.2 \/ (x.2 = y.2 /\ (x.1 = y.1 \/ lexico x.1 y.1)).

Global Instance by_count_then_artist_dec x y :
  Decision (by_count_then_artist x y).
Proof. unfold by_count_then_artist. apply _. Defined.

(** [COUNT] of the rows of one artist. *)
Definition song_count (rows : list melon_chart_data_row) (a : str) : Z :=
  Z.of_nat (length (filter (fun r => mc_artist r = a) rows)).

(** [GROUP BY artist]: one pair per artist that occurs. *)
Definition group_by_artist (rows : list melon_chart_data_row) : list (str * Z) :=
  map (fun a => (a, song_count rows a)) (remove_dups (map mc_artist rows)).

(** [LIMIT n]: a negative bound means no bound. *)
Definition limit_rows {A} (n : Z) (l : list A) : list A :=
  if n <? 0 then l else take (Z.to_nat n) l.

Definition chart_sqlrow (r : melon_chart_data_row) : sqlrow :=
  [VInt (mc_ranking r); VText (mc_title r); VText (mc_artist r)].

Definition artist_count_sqlrow (p : str * Z) : sqlrow := [VText p.1; VInt p.2].

(** *** The statements of the program *)

Inductive statement :=
| UPDATE_search_count (keyword : str)
    (* UPDATE search_count SET count = count + 1 WHERE keyword = ? *)
| INSERT_search_count (keyword : str)
    (* INSERT INTO search_count (keyword, count) VALUES (?, 1) *)
| DELETE_melon_chart_data
    (* DELETE FROM melon_chart_data *)
| INSERT_OR_REPLACE_melon_chart_data (ranking : Z) (title artist : str)
    (* INSERT OR REPLACE INTO melon_chart_data (ranking, title, artist)
       VALUES (?, ?, ?) *)
| SELECT_artist_song_count (limit : Z)
    (* SELECT artist, COUNT( * ) AS song_count FROM melon_chart_data
       GROUP BY artist ORDER BY song_count DESC, artist ASC LIMIT ? *)
| SELECT_melon_chart_data
    (* SELECT ranking, title, artist FROM melon_chart_data
       ORDER BY ranking ASC *)
| SELECT_melon_chart_data_LIKE (pattern : str).
    (* SELECT ranking, title, artist FROM melon_chart_data
       WHERE artist LIKE ? ORDER BY ranking ASC *)

Definition writes (s : statement) : bool :=
  match s with
  | UPDATE_search_count _ | INSERT_search_count _
  | DELETE_melon_chart_data | INSERT_OR_REPLACE_melon_chart_data _ _ _ => true
  | _ => false
  end.

Definition bump (keyword : str) (r : search_count_row) : search_count_row :=
  if decide (sc_keyword r = keyword)
  then {| sc_id := sc_id r; sc_keyword := sc_keyword r; sc_count := sc_count r + 1 |}
  else r.

Definition unique_failed : str := py "UNIQUE constraint failed: search_count.keyword".

(** One statement against the tables: the new tables and the cursor, or the
    error of a violated constraint. *)
Definition run_statement (s : statement) (d : Database) : pyresult (Database * cursor) :=
  match s with
  | UPDATE_search_count keyword =>
    let hit := filter (fun r => sc_keyword r = keyword) (search_count d) in
    Return ({| search_count := map (bump keyword) (search_count d);
               melon_chart_data := melon_chart_data d;
               seq_search_count := seq_search_count d;
               seq_melon_chart_data := seq_melon_chart_data d |},
            {| rowcount := Z.of_nat (length hit); fetchall := [] |})
  | INSERT_search_count keyword =>
    if decide (keyword ∈ map sc_keyword (search_count d))
    then Raise (IntegrityError unique_failed)
    else
      let i := next_id (seq_search_count d) (map sc_id (search_count d)) in
      Return ({| search_count :=
                   search_count d ++
                   [{| sc_id := i; sc_keyword := keyword; sc_count := 1 |}];
                 melon_chart_data := melon_chart_data d;
                 seq_search_count := i;
                 seq_melon_chart_data := seq_melon_chart_data d |},
              {| rowcount := 1; fetchall := [] |})
  | DELETE_melon_chart_data =>
    Return ({| search_count := search_count d;
               melon_chart_data := [];
               seq_search_count := seq_search_count d;
               seq_melon_chart_data := seq_melon_chart_data d |},
            {| rowcount := Z.of_nat (length (melon_chart_data d)); fetchall := [] |})
  | INSERT_OR_REPLACE_melon_chart_data ranking title artist =>
    let kept := filter (fun r => mc_ranking r <> ranking) (melon_chart_data d) in
    let i := next_id (seq_melon_chart_data d) (map mc_id (melon_chart_data d)) in
    Return ({| search_count := search_count d;
               melon_chart_data :=
                 kept ++ [{| mc_id := i; mc_ranking := ranking;
                             mc_title := title; mc_artist := artist |}];
               seq_search_count := seq_search_count d;
               seq_melon_chart_data := i |},
            {| rowcount := 1; fetchall := [] |})
  | SELECT_artist_song_count limit =>
    Return (d, {| rowcount := -1;
                  fetchall :=
                    map artist_count_sqlrow
                      (limit_rows limit
                         (merge_sort by_count_then_artist
                            (group_by_artist (melon_chart_data d)))) |})
  | SELECT_melon_chart_data =>
    Return (d, {| rowcount := -1;
                  fetchall :=
                    map chart_sqlrow
                      (merge_sort by_ranking (melon_chart_data d)) |})
  | SELECT_melon_chart_data_LIKE pattern =>
    Return (d, {| rowcount := -1;
                  fetchall :=
                    map chart_sqlrow
                      (merge_sort by_ranking
                         (filter (fun r => like pattern (mc_artist r) = true)
                            (melon_chart_data d))) |})
  end.

(** ** The outside world *)

#[warnings="-register-all"]
Inductive json :=
| JNull
| JBool (b : bool)
| JNumber (literal : str)
| JString (s : str)
| JArray (l : list json)
| JObject (members : list (str * json)).

(** One element matched by [soup.select(".lst50, .lst100")], seen through the
    three [select_one] calls of the loop: the [.text] of the element found,
    or [None]. *)
Record row_el := {
  rank_el : option str;
  title_el : option str;
  artist_el : option str
}.

(** A [requests.Response], with the two readings of its body the program
    makes: [BeautifulSoup(r.text, "html.parser").select(...)] and [r.json()]. *)
Record response := {
  status_code : Z;
  soup_select : pyresult (list row_el);
  json_body : pyresult json
}.

Inductive event :=
| Execute (s : statement)
| Commit
| HttpGet (url : str) (headers : list (str * str)) (timeout : Z).

Record world := {
  (* search_rank.db, as committed *)
  disk : Database;
  (* flask.g._db: the request's connection, if opened, and the tables as its
     open transaction sees them, if one has begun *)
  g_db : option (option Database);
  (* os.environ *)
  environ : str -> option str;
  (* the answer of requests.get(url, headers=..., timeout=...) *)
  network : str -> list (str * str) -> pyresult response;
  trace : list event
}.

Definition set_db (w : world) (d : Database) (g : option (option Database))
    (evs : list event) : world :=
  {| disk := d; g_db := g; environ := environ w; network := network w;
     trace := trace w ++ evs |}.

(** ** The monad of handlers *)

Definition M (A : Type) : Type := world -> pyresult A * world.

Definition ret {A} (a : A) : M A := fun w => (Return a, w).

Definition bind {A B} (m : M A) (k : A -> M B) : M B :=
  fun w =>
    match m w with
    | (Return a, w') => k a w'
    | (Raise e, w') => (Raise e, w')
    end.

Notation "x <- m ;; k" := (bind m (fun x => k))
  (at level 100, m at next level, right associativity).
Notation "m ;;; k" := (bind m (fun _ => k))
  (at level 100, right associativity).

(** [try: body except Exception as e: handler e] *)
Definition try_except {A} (body : M A) (handler : exn -> M A) : M A :=
  fun w =>
    match body w with
    | (Return a, w') => (Return a, w')
    | (Raise e, w') => handler e w'
    end.

Definition lift {A} (r : pyresult A) : M A := fun w => (r, w).

(** [for x in l: body x] *)
Fixpoint for_each {A} (l : list A) (body : A -> M unit) : M unit :=
  match l with
  | [] => ret tt
  | x :: l' => body x ;;; for_each l' body
  end.

(** *** sqlite3 *)

Definition no_connection : str := py "Cannot operate on a closed database.".

(** [get_db()]: the connection of the request, opened on first use. *)
Definition get_db : M unit :=
  fun w =>
    match g_db w with
    | None => (Return tt, set_db w (disk w) (Some None) [])
    | Some _ => (Return tt, w)
    end.

(** [cur.execute(statement)].  A writing statement begins a transaction if
    none is open; a statement that fails changes no table. *)
Definition execute (s : statement) : M cursor :=
  fun w =>
    match g_db w with
    | None => (Raise (ProgrammingError no_connection), w)
    | Some txn =>
      let view := default (disk w) txn in
      match run_statement s view with
      | Return (d', c) =>
        (Return c,
         set_db w (disk w) (Some (if writes s then Some d' else txn)) [Execute s])
      | Raise e =>
        (Raise e,
         set_db w (disk w) (Some (if writes s then Some view else txn)) [Execute s])
      end
    end.

(** [db.commit()] *)
Definition commit : M unit :=
  fun w =>
    match g_db w with
    | None => (Raise (ProgrammingError no_connection), w)
    | Some (Some d') => (Return tt, set_db w d' (Some None) [Commit])
    | Some None => (Return tt, set_db w (disk w) (Some None) [Commit])
    end.

(** [close_db] at teardown: what was not committed is lost. *)
Definition close_db (w : world) : world := set_db w (disk w) None [].

(** *** requests *)

Definition requests_get (url : str) (headers : list (str * str)) (timeout : Z)
    : M response :=
  fun w => (network w url headers, set_db w (disk w) (g_db w) [HttpGet url headers timeout]).

Definition getenv (name default_ : str) : M str :=
  fun w => (Return (default default_ (environ w name)), w).

(** ** [increment_search_count] *)

Definition increment_search_count (keyword : str) : M unit :=
  get_db ;;;
  cur <- execute (UPDATE_search_count keyword) ;;
  (if rowcount cur =? 0
   then execute (INSERT_search_count keyword) ;;; ret tt
   else ret tt) ;;;
  commit.

(** ** [search_naver_blog] *)

Definition NAVER_CLIENT_ID : M str :=
  v <- getenv (py "NAVER_CLIENT_ID") (py "") ;; ret (strip v).

Definition NAVER_CLIENT_SECRET : M str :=
  v <- getenv (py "NAVER_CLIENT_SECRET") (py "") ;; ret (strip v).

Record blog_result := {
  items : json;
  error : option str
}.

Definition hex_digit (n : N) : char := if (n <? 10)%N then (48 + n)%N else (55 + n)%N.

Definition quote_safe (b : N) : bool :=
  in_range 48 57 b || in_range 65 90 b || in_range 97 122 b
  || (b =? 95)%N || (b =? 46)%N || (b =? 45)%N || (b =? 126)%N || (b =? 47)%N.

(** [urllib.parse.quote(s)] *)
Definition quote (s : str) : str :=
  flat_map (fun b => if quote_safe b then [b]
                     else [percent; hex_digit (b / 16); hex_digit (b mod 16)]%N)
           (flat_map utf8_encode_char s).

(** [str(n)] of an integer, as an f-string formats it. *)
Definition str_of_Z (z : Z) : str :=
  bytes_of_string (NilZero.string_of_int (Z.to_int z)).

(** [r.json().get("items", [])] *)
Fixpoint dict_get (members : list (str * json)) (key : str) (found : option json)
    : option json :=
  match members with
  | [] => found
  | (k, v) :: rest => dict_get rest key (if decide (k = key) then Some v else found)
  end.

(** The name of the Python type [r.json()] gives for a JSON value. *)
Definition json_type_name (j : json) : str :=
  match j with
  | JNull => py "NoneType"
  | JBool _ => py "bool"
  | JNumber literal =>
    if existsb (fun c => bool_decide (c ∈ py ".eENI")) literal
    then py "float" else py "int"
  | JString _ => py "str"
  | JArray _ => py "list"
  | JObject _ => py "dict"
  end.

Definition json_get_items (j : json) : pyresult json :=
  match j with
  | JObject members => Return (default (JArray []) (dict_get members (py "items") None))
  | _ =>
    Raise (AttributeError
             (py "'" ++ json_type_name j ++ py "' object has no attribute 'get'"))
  end.

Definition search_naver_blog (query : str) (display : Z) (sort : str) : M blog_result :=
  client_id <- NAVER_CLIENT_ID ;;
  client_secret <- NAVER_CLIENT_SECRET ;;
  if bool_decide (client_id = []) || bool_decide (client_secret = []) then
    ret {| items := JArray [];
           error := Some (py "NAVER API 키가 없습니다. 환경변수로 설정해주세요.") |}
  else
    let enc_query := quote query in
    let url := py "https://openapi.naver.com/v1/search/blog.json?query=" ++ enc_query
               ++ py "&display=" ++ str_of_Z display ++ py "&sort=" ++ sort in
    let headers := [(py "X-Naver-Client-Id", client_id);
                    (py "X-Naver-Client-Secret", client_secret)] in
    try_except
      (r <- requests_get url headers 10 ;;
       if status_code r =? 200 then
         j <- lift (json_body r) ;;
         its <- lift (json_get_items j) ;;
         ret {| items := its; error := None |}
       else
         ret {| items := JArray [];
                error := Some (py "네이버 API 오류: " ++ str_of_Z (status_code r)) |})
      (fun e =>
         ret {| items := JArray [];
                error := Some (py "요청 실패: " ++ exn_str e) |}).

(** ** [fetch_melon_chart] *)

Record ChartEntry := {
  rank : Z;
  title : str;
  artist : str
}.

(** The body of the [for row in rows] loop, with [chart] as it stands. *)
Fixpoint parse_rows (rows : list row_el) (chart : list ChartEntry)
    : pyresult (list ChartEntry) :=
  match rows with
  | [] => Return chart
  | row :: rest =>
    let rank := match rank_el row with Some t => strip t | None => py "" end in
    let title := match title_el row with Some t => strip t | None => py "제목 없음" end in
    let artist := match artist_el row with Some t => strip t | None => py "아티스트 없음" end in
    if isdigit rank then
      match int rank with
      | Return n =>
        parse_rows rest (chart ++ [{| rank := n; title := title; artist := artist |}])
      | Raise e => Raise e
      end
    else parse_rows rest chart
  end.

Definition fetch_melon_chart : M (list ChartEntry) :=
  let url := py "https://www.melon.com/chart/" in
  let headers := [(py "User-Agent", py "Mozilla/5.0")] in
  try_except
    (r <- requests_get url headers 10 ;;
     if negb (status_code r =? 200) then ret []
     else
       rows <- lift (soup_select r) ;;
       lift (parse_rows rows []))
    (fun _ => ret []).

(** ** [save_melon_chart_to_db], [get_artist_count_ranking] *)

Definition save_melon_chart_to_db (chart_data : list ChartEntry) : M unit :=
  get_db ;;;
  execute DELETE_melon_chart_data ;;;
  for_each chart_data (fun item =>
    execute (INSERT_OR_REPLACE_melon_chart_data (rank item) (title item) (artist item)) ;;;
    ret tt) ;;;
  commit.

Definition get_artist_count_ranking (limit : Z) : M (list sqlrow) :=
  get_db ;;;
  cur <- execute (SELECT_artist_song_count limit) ;;
  ret (fetchall cur).

(** ** Routes *)

Inductive page :=
| search_blog_html (query : str) (results : json) (error : option str)
| melon_chart_html (chart_list : list sqlrow)
| artist_ranking_html (top_artists : list sqlrow)
| artist_search_html (artist_query : str) (results : list sqlrow).

Inductive reply :=
| render_template (p : page)
| redirect (endpoint : string).

(** [(request.args.get(name) or "").strip()] *)
Definition arg_or_empty (arg : option str) : str := strip (default (py "") arg).

Definition blog (query : option str) : M reply :=
  let q := arg_or_empty query in
  if bool_decide (q <> []) then
    increment_search_count q ;;;
    resp <- search_naver_blog q 10 (py "sim") ;;
    ret (render_template (search_blog_html q (items resp) (error resp)))
  else
    ret (render_template (search_blog_html q (JArray []) None)).

Definition melon_chart : M reply :=
  get_db ;;;
  cur <- execute SELECT_melon_chart_data ;;
  ret (render_template (melon_chart_html (fetchall cur))).

Definition update_chart_db : M reply :=
  data <- fetch_melon_chart ;;
  (match data with
   | _ :: _ => save_melon_chart_to_db data
   | [] => ret tt
   end) ;;;
  ret (redirect "melon_chart").

Definition artist_ranking : M reply :=
  top_artists <- get_artist_count_ranking 10 ;;
  ret (render_template (artist_ranking_html top_artists)).

Definition artist_search (artist_query : option str) : M reply :=
  let query := arg_or_empty artist_query in
  if bool_decide (query <> []) then
    get_db ;;;
    cur <- execute (SELECT_melon_chart_data_LIKE ([percent] ++ query ++ [percent])) ;;
    ret (render_template (artist_search_html query (fetchall cur)))
  else
    ret (render_template (artist_search_html query [])).

(** One request: the handler runs with no connection yet, and the teardown
    closes it whatever the handler did. *)
Definition serve {A} (handler : M A) (w : world) : pyresult A * world :=
  let '(r, w') := handler (set_db w (disk w) None []) in
  (r, close_db w').

(** ** Notions used in the statements *)

Definition entry_of_row (r : melon_chart_data_row) : ChartEntry :=
  {| rank := mc_ranking r; title := mc_title r; artist := mc_artist r |}.

Definition entry_sqlrow (e : ChartEntry) : sqlrow :=
  [VInt (rank e); VText (title e); VText (artist e)].

(** The chart snapshot a database file holds. *)
Definition snapshot (d : Database) : list ChartEntry :=
  map entry_of_row (melon_chart_data d).

(** The tables after one INSERT OR REPLACE. *)
Definition replace_into (d : Database) (item : ChartEntry) : Database :=
  match run_statement
          (INSERT_OR_REPLACE_melon_chart_data (rank item) (title item) (artist item)) d with
  | Return (d', _) => d'
  | Raise _ => d
  end.

Definition delete_all (d : Database) : Database :=
  match run_statement DELETE_melon_chart_data d with
  | Return (d', _) => d'
  | Raise _ => d
  end.

Definition insert_event (item : ChartEntry) : event :=
  Execute (INSERT_OR_REPLACE_melon_chart_data (rank item) (title item) (artist item)).

(** On entries: an entry displaces the ones of its rank. *)
Definition upsert_entry (es : list ChartEntry) (e : ChartEntry) : list ChartEntry :=
  filter (fun x => rank x <> rank e) es ++ [e].

(** [e] is the last entry of its rank in [chart]. *)
Definition last_with_rank (chart : list ChartEntry) (e : ChartEntry) : Prop :=
  exists pre post, chart = pre ++ e :: post /\ Forall (fun e' => rank e' <> rank e) post.

Definition rank_lt (x y : ChartEntry) : Prop := rank x < rank y.

(** What a reply shows. *)
Definition shows_chart (r : pyresult reply) (entries : list ChartEntry) : Prop :=
  r = Return (render_template (melon_chart_html (map entry_sqlrow entries))).

(** The schema holds of the file and of the open transaction. *)
Definition world_ok (w : world) : Prop :=
  schema_ok (disk w) /\ (forall d, g_db w = Some (Some d) -> schema_ok d).

(** A computation that keeps the schema, whether it returns or raises. *)
Definition preserves {A} (m : M A) : Prop :=
  forall w, world_ok w -> world_ok (m w).2.

(** *** Reading a chart row *)

Definition rank_text (row : row_el) : str :=
  match rank_el row with Some t => strip t | None => py "" end.

Definition title_text (row : row_el) : str :=
  match title_el row with Some t => strip t | None => py "제목 없음" end.

Definition artist_text (row : row_el) : str :=
  match artist_el row with Some t => strip t | None => py "아티스트 없음" end.

(** The row passes the test of the loop. *)
Definition included (row : row_el) : Prop := isdigit (rank_text row) = true.

(** The rank is a numeral in decimal digits. *)
Definition decimal_rank (row : row_el) : Prop := isdecimal (rank_text row) = true.

(** The number a string of decimal digits denotes. *)
Definition decimal_number (s : str) : N :=
  foldl (fun acc c => (acc * 10 + default 0 (decimal_value c))%N) 0%N s.

(** The entry of a row whose rank is a decimal numeral. *)
Definition row_entry (row : row_el) : ChartEntry :=
  {| rank := Z.of_N (decimal_number (rank_text row));
     title := title_text row;
     artist := artist_text row |}.

(** How the fields of an entry come from the elements of its row. *)
Definition fields_of (row : row_el) (e : ChartEntry) : Prop :=
  match title_el row with
  | None => title e = py "제목 없음"
  | Some t => title e = strip t
  end /\
  match artist_el row with
  | None => artist e = py "아티스트 없음"
  | Some t => artist e = strip t
  end.

(** The request for the chart page, and the answer of the network to it. *)
Definition melon_request : event :=
  HttpGet (py "https://www.melon.com/chart/") [(py "User-Agent", py "Mozilla/5.0")] 10.

Definition melon_answer (w : world) : pyresult response :=
  network w (py "https://www.melon.com/chart/") [(py "User-Agent", py "Mozilla/5.0")].

(** What [fetch_melon_chart] makes of an answer. *)
Definition fetched (answer : pyresult response) : list ChartEntry :=
  match answer with
  | Raise _ => []
  | Return r =>
    if negb (status_code r =? 200) then []
    else match soup_select r with
         | Raise _ => []
         | Return rows =>
           match parse_rows rows [] with
           | Return chart => chart
           | Raise _ => []
           end
         end
  end.

(** The ways the request for the chart can fail. *)
Inductive fetch_failure : pyresult response -> Prop :=
| network_error e :
    fetch_failure (Raise e)
| bad_status r :
    status_code r <> 200 -> fetch_failure (Return r)
| parse_exception r e :
    soup_select r = Raise e -> fetch_failure (Return r)
| row_exception r rows e :
    soup_select r = Return rows -> parse_rows rows [] = Raise e ->
    fetch_failure (Return r).

(** A page with the given rows, served with status 200. *)
Definition page_with (rows : list row_el) : pyresult response :=
  Return {| status_code := 200; soup_select := Return rows;
            json_body := Raise (ValueError (py "Expecting value")) |}.

Definition online (d : Database) (rows : list row_el) : world :=
  {| disk := d; g_db := None; environ := fun _ => None;
     network := fun _ _ => page_with rows; trace := [] |}.

Definition row (r t a : string) : row_el :=
  {| rank_el := Some (py r); title_el := Some (py t); artist_el := Some (py a) |}.

(** *** Counting searches *)

(** The tables after [increment_search_count keyword]. *)
Definition record_search (keyword : str) (d : Database) : Database :=
  if decide (keyword ∈ map sc_keyword (search_count d)) then
    {| search_count := map (bump keyword) (search_count d);
       melon_chart_data := melon_chart_data d;
       seq_search_count := seq_search_count d;
       seq_melon_chart_data := seq_melon_chart_data d |}
  else
    let i := next_id (seq_search_count d) (map sc_id (search_count d)) in
    {| search_count :=
         search_count d ++ [{| sc_id := i; sc_keyword := keyword; sc_count := 1 |}];
       melon_chart_data := melon_chart_data d;
       seq_search_count := i;
       seq_melon_chart_data := seq_melon_chart_data d |}.

Definition record_search_events (keyword : str) (d : Database) : list event :=
  if decide (keyword ∈ map sc_keyword (search_count d)) then
    [Execute (UPDATE_search_count keyword); Commit]
  else
    [Execute (UPDATE_search_count keyword); Execute (INSERT_search_count keyword); Commit].

(** A row after a search for [keyword]: the same row, its count one higher
    if the keyword is its own. *)
Definition counted_once (keyword : str) (r r' : search_count_row) : Prop :=
  sc_id r' = sc_id r /\
  sc_keyword r' = sc_keyword r /\
  sc_count r' = sc_count r + (if decide (sc_keyword r = keyword) then 1 else 0).

(** The rows of one keyword. *)
Definition records_of (keyword : str) (d : Database) : list search_count_row :=
  filter (fun r => sc_keyword r = keyword) (search_count d).

(** The world after one more request that records [keyword]. *)
Definition search_again (keyword : str) (w : world) : world :=
  (serve (increment_search_count keyword) w).2.

(** *** Ranking artists *)

(** [x] comes strictly before [y]: more songs, or as many and a smaller
    name. *)
Definition ranks_before (x y : str * Z) : Prop :=
  x.2 > y.2 \/ (x.2 = y.2 /\ lexico x.1 y.1).

(** The number of entries of a snapshot by one artist. *)
Definition songs_by (a : str) (entries : list ChartEntry) : Z :=
  Z.of_nat (length (filter (fun e => artist e = a) entries)).

(** *** Searching by artist *)

Definition rank_le (x y : ChartEntry) : Prop := rank x <= rank y.

(** [s] contains [q] as it is written. *)
Definition substring (q s : str) : Prop :=
  exists pre post, s = pre ++ q ++ post.

(** Equal up to the case of ASCII letters. *)
Definition same_nocase (a b : str) : Prop :=
  map sqlite3Tolower a = map sqlite3Tolower b.

(** [s] contains [q] up to the case of ASCII letters. *)
Definition contains_nocase (q s : str) : Prop :=
  exists pre mid post, s = pre ++ mid ++ post /\ same_nocase mid q.

Definition no_wildcard (q : str) : Prop := (percent ∉ q) /\ (underscore ∉ q).

(** *** Credentials *)

(** An environment variable that is not set, or holds blanks only. *)
Definition missing_or_blank (v : option str) : Prop :=
  match v with
  | None => True
  | Some s => Forall (fun c => isspace_char c = true) s
  end.

(** ** Sample data *)

Definition entry (n : Z) (t a : string) : ChartEntry :=
  {| rank := n; title := py t; artist := py a |}.

Definition chart_row (i n : Z) (t a : string) : melon_chart_data_row :=
  {| mc_id := i; mc_ranking := n; mc_title := py t; mc_artist := py a |}.

(** The snapshot of the examples: two songs by X, one by Y. *)
Definition sample_db : Database :=
  {| search_count := [];
     melon_chart_data :=
       [chart_row 1 1 "T1" "X"; chart_row 2 2 "T2" "X"; chart_row 3 3 "T3" "Y"];
     seq_search_count := 0;
     seq_melon_chart_data := 3 |}.

(** A world whose network is down and whose environment is empty. *)
Definition offline (d : Database) : world :=
  {| disk := d; g_db := None; environ := fun _ => None;
     network := fun _ _ => Raise (RequestException (py "connection refused"));
     trace := [] |}.

(** ** Order instances *)

Global Instance by_ranking_total : Total by_ranking.
Proof. intros x y. unfold by_ranking. lia. Qed.

Global Instance by_ranking_trans : Transitive by_ranking.
Proof. intros x y z. unfold by_ranking. lia. Qed.

Global Instance by_count_then_artist_total : Total by_count_then_artist.
Proof.
  intros [a1 n1] [a2 n2]. unfold by_count_then_artist. simpl.
  destruct (Z.lt_trichotomy n1 n2) as [?|[->|?]]; [right; left; lia| |left; left; lia].
  destruct (trichotomy lexico a1 a2) as [?|[->|?]]; [left|left|right]; right; auto.
Qed.

Global Instance by_count_then_artist_trans : Transitive by_count_then_artist.
Proof.
  intros [a1 n1] [a2 n2] [a3 n3]. unfold by_count_then_artist. simpl.
  intros [H1|[-> H1]] [H2|[-> H2]]; [left; lia|left; lia|left; lia|].
  right. split; [done|].
  destruct H1 as [->|H1]; [done|]. destruct H2 as [->|H2]; [by right|].
  right. by transitivity a2.
Qed.

Arguments py : simpl never.

(** ** The values the libraries take

    What the interpreter and the engine accept of the values the model lets
    through: the statements of the theorems name these domains. *)

(** A code point that UTF-8 encodes: any but a surrogate.  A [str] of such
    code points is a text; [quote] and the parameters of a statement take
    texts, and a request hands over nothing else. *)
Definition scalar_value (c : char) : Prop :=
  (c < 0xD800)%N \/ (0xDFFF < c)%N /\ (c < 0x110000)%N.

Definition text (s : str) : Prop := Forall scalar_value s.

(** An entry the chart table takes: texts, and a rank of the INTEGER
    storage class. *)
Definition storable (e : ChartEntry) : Prop :=
  rank e < 2 ^ 63 /\ text (title e) /\ text (artist e).

(** An entry [save_melon_chart_to_db] can bind to its INSERT: storable, the
    rank not below the least INTEGER either. *)
Definition bindable (e : ChartEntry) : Prop := - 2 ^ 63 <= rank e /\ storable e.

(** A text LIKE reads as it is written: the engine stops reading an operand
    at U+0000 and reads U+FFFE and U+FFFF as U+FFFD. *)
Definition like_char (c : char) : Prop :=
  scalar_value c /\ c <> 0%N /\ c <> 0xFFFE%N /\ c <> 0xFFFF%N.

Definition like_text (s : str) : Prop := Forall like_char s.

(** The length of a text in bytes of UTF-8, as the engine measures a
    pattern, and the longest pattern LIKE takes
    (SQLITE_MAX_LIKE_PATTERN_LENGTH). *)
Definition utf8_length (s : str) : Z := Z.of_nat (length (flat_map utf8_encode_char s)).

Definition like_pattern_limit : Z := 50000.

(** The longest numeral [int] converts ([sys.int_info.default_max_str_digits]). *)
Definition int_max_str_digits : Z := 4300.

(** ** Notions used in the further properties *)

(** No blank at either end. *)
Definition trimmed (s : str) : Prop :=
  (forall c t, s = c :: t -> isspace_char c = false) /\
  (forall t c, s = t ++ [c] -> isspace_char c = false).

(** What the data model asks of a keyword record: a keyword that is not
    empty and has no blank at its ends, and a count of at least one. *)
Definition keyword_record_ok (r : search_count_row) : Prop :=
  sc_keyword r <> [] /\ trimmed (sc_keyword r) /\ 1 <= sc_count r.

Definition keywords_ok (d : Database) : Prop :=
  Forall keyword_record_ok (search_count d).

(** The count the store holds for a keyword: 0 without a record. *)
Definition count_of (keyword : str) (d : Database) : Z :=
  foldr Z.add 0 (map sc_count (records_of keyword d)).

(** The world after a request of the blog route for each query in turn. *)
Definition blog_requests (queries : list (option str)) (w : world) : world :=
  foldl (fun w q => (serve (blog q) w).2) w queries.

(** The number of queries that are [keyword] once trimmed. *)
Definition searches_for (keyword : str) (queries : list (option str)) : Z :=
  Z.of_nat (length (filter (fun q => arg_or_empty q = keyword) queries)).

(** An event that changes nothing: the SELECT of a read. *)
Definition is_read (ev : event) : Prop :=
  match ev with
  | Execute s => writes s = false
  | Commit | HttpGet _ _ _ => False
  end.

(** The request of [search_naver_blog]. *)
Definition naver_url (query : str) (display : Z) (sort : str) : str :=
  py "https://openapi.naver.com/v1/search/blog.json?query=" ++ quote query
  ++ py "&display=" ++ str_of_Z display ++ py "&sort=" ++ sort.

Definition naver_headers (client_id client_secret : str) : list (str * str) :=
  [(py "X-Naver-Client-Id", client_id); (py "X-Naver-Client-Secret", client_secret)].

(** The value of an environment variable as the module reads it. *)
Definition credential (w : world) (name : string) : str :=
  strip (default (py "") (environ w (py name))).

(** An entry as a fetch makes it. *)
Definition entry_ok (e : ChartEntry) : Prop :=
  0 <= rank e /\ trimmed (title e) /\ trimmed (artist e).

(** The characters [quote] lets through, and the ones it writes. *)
Definition url_char (c : char) : Prop := quote_safe c = true \/ c = percent.

(** A world with both credentials set and a network that answers every
    request with the given response. *)
Definition answering (d : Database) (r : response) : world :=
  {| disk := d; g_db := None;
     environ := fun name =>
       if decide (name = py "NAVER_CLIENT_ID") then Some (py " id ")
       else if decide (name = py "NAVER_CLIENT_SECRET") then Some (py "secret")
       else None;
     network := fun _ _ => Return r; trace := [] |}.

Definition json_response (status : Z) (j : json) : response :=
  {| status_code := status;
     soup_select := Return [];
     json_body := Return j |}.

(** What [search_naver_blog] makes of the answer to its request. *)
Definition naver_result (answer : pyresult response) : blog_result :=
  let failed e := {| items := JArray []; error := Some (py "요청 실패: " ++ exn_str e) |} in
  match answer with
  | Raise e => failed e
  | Return r =>
    if status_code r =? 200 then
      match json_body r with
      | Raise e => failed e
      | Return j =>
        match json_get_items j with
        | Return its => {| items := its; error := None |}
        | Raise e => failed e
        end
      end
    else {| items := JArray [];
            error := Some (py "네이버 API 오류: " ++ str_of_Z (status_code r)) |}
  end.

Definition no_credentials : blog_result :=
  {| items := JArray [];
     error := Some (py "NAVER API 키가 없습니다. 환경변수로 설정해주세요.") |}.

(** ** [/ranking]

    [SELECT keyword, count FROM search_count ORDER BY count DESC LIMIT 10],
    the rows the route hands to its template.  The order of records with
    equal counts is the choice of the engine, [sort]. *)
Definition by_count (x y : search_count_row) : Prop := sc_count y <= sc_count x.

Definition keyword_sqlrow (r : search_count_row) : sqlrow :=
  [VText (sc_keyword r); VInt (sc_count r)].

Definition top_keywords (sort : list search_count_row -> list search_count_row)
    (d : Database) : list sqlrow :=
  map keyword_sqlrow (limit_rows 10 (sort (search_count d))).

(** What ORDER BY count DESC asks of the engine. *)
Definition orders_by_count (sort : list search_count_row -> list search_count_row) : Prop :=
  forall l, sort l ≡ₚ l /\ StronglySorted by_count (sort l).

#[global] Instance scalar_value_dec c : Decision (scalar_value c).
Proof. unfold scalar_value. apply _. Defined.

#[global] Instance text_dec s : Decision (text s).
Proof. unfold text. apply _. Defined.

#[global] Instance storable_dec e : Decision (storable e).
Proof. unfold storable. apply _. Defined.

#[global] Instance bindable_dec e : Decision (bindable e).
Proof. unfold bindable. apply _. Defined.

#[global] Instance like_char_dec c : Decision (like_char c).
Proof. unfold like_char. apply _. Defined.

#[global] Instance like_text_dec s : Decision (like_text s).
Proof. unfold like_text. apply _. Defined.

#[global] Instance by_count_dec x y : Decision (by_count x y).
Proof. unfold by_count. apply _. Defined.

#[global] Instance by_count_total : Total by_count.
Proof. intros x y. unfold by_count. lia. Qed.

#[global] Instance by_count_trans : Transitive by_count.
Proof. intros x y z. unfold by_count. lia. Qed.

(** ** Samples *)

Example like_samples :
  like (py "%x%") (py "X") = true /\
  like (py "A_C") (py "abc") = true /\
  like (py "%_%") (py "") = false /\
  like (py "%é%") (py "É") = false /\
  like (py "a%") (py "ab") = true /\
  like (py "a%") (py "ba") = false.
Proof. by vm_compute. Qed.

Example text_samples :
  strip (py "  12 ") = py "12" /\
  isdigit (py "12") = true /\
  isdigit (py "") = false /\
  isdigit (py "1 2") = false /\
  int (py "12") = Return 12 /\
  int (py "１２") = Return 12 /\
  int (py " +1_000 ") = Return 1000 /\
  quote (py "멜론 a/b") = py "%EB%A9%9C%EB%A1%A0%20a/b".
Proof. by vm_compute. Qed.

(** A chart that repeats the ranks 3 and 1: the later entry takes the place
    of the earlier one under a new rowid. *)
Example save_samples :
  let chart := [entry 3 "C" "b"; entry 1 "A" "B"; entry 3 "D" "é"; entry 1 "E" "ab"] in
  let w := (serve (save_melon_chart_to_db chart) (offline sample_db)).2 in
  melon_chart_data (disk w) = [chart_row 6 3 "D" "é"; chart_row 7 1 "E" "ab"] /\
  (serve melon_chart w).1
  = Return (render_template
              (melon_chart_html [entry_sqlrow (entry 1 "E" "ab");
                                 entry_sqlrow (entry 3 "D" "é")])) /\
  (serve (get_artist_count_ranking 10) w).1
  = Return [[VText (py "ab"); VInt 1]; [VText (py "é"); VInt 1]].
Proof. by vm_compute. Qed.

(** ** Worlds *)

Lemma set_db_id w : set_db w (disk w) (g_db w) [] = w.
Proof. destruct w; unfold set_db; simpl. by rewrite app_nil_r. Qed.

Lemma set_db_set_db w d g evs d' g' evs' :
  set_db (set_db w d g evs) d' g' evs' = set_db w d' g' (evs ++ evs').
Proof. unfold set_db; simpl. by rewrite app_assoc. Qed.

Lemma bind_run {A B} (m : M A) (k : A -> M B) w a w' :
  m w = (Return a, w') -> bind m k w = k a w'.
Proof. unfold bind. by intros ->. Qed.

Lemma bind_raise {A B} (m : M A) (k : A -> M B) w e w' :
  m w = (Raise e, w') -> bind m k w = (Raise e, w').
Proof. unfold bind. by intros ->. Qed.

Lemma get_db_run w :
  get_db w = (Return tt, set_db w (disk w) (Some (default None (g_db w))) []).
Proof.
  unfold get_db. destruct (g_db w) as [g|] eqn:E; simpl; [|done].
  by rewrite <- E, set_db_id.
Qed.

(** ** The snapshot after a save *)

Lemma filter_map_entry k rows :
  map entry_of_row (filter (fun r => mc_ranking r <> k) rows)
  = filter (fun e => rank e <> k) (map entry_of_row rows).
Proof.
  induction rows as [|r rows IH]; [done|].
  rewrite filter_cons. simpl. rewrite filter_cons. simpl.
  destruct (decide (mc_ranking r <> k)); simpl; by rewrite IH.
Qed.

Lemma snapshot_replace_into d item :
  snapshot (replace_into d item) = upsert_entry (snapshot d) item.
Proof.
  unfold snapshot, replace_into, upsert_entry. simpl.
  rewrite map_app. simpl.
  rewrite filter_map_entry.
  by destruct item.
Qed.

Lemma snapshot_foldl chart d :
  snapshot (foldl replace_into d chart) = foldl upsert_entry (snapshot d) chart.
Proof.
  revert d. induction chart as [|e chart IH]; intros d; [done|].
  simpl. by rewrite IH, snapshot_replace_into.
Qed.

Lemma snapshot_delete_all d : snapshot (delete_all d) = [].
Proof. done. Qed.

Lemma for_each_insert chart w d :
  g_db w = Some (Some d) ->
  for_each chart
    (fun item =>
       execute (INSERT_OR_REPLACE_melon_chart_data (rank item) (title item) (artist item)) ;;;
       ret tt) w
  = (Return tt,
     set_db w (disk w) (Some (Some (foldl replace_into d chart))) (map insert_event chart)).
Proof.
  revert w d. induction chart as [|e chart IH]; intros w d Hg.
  - simpl. unfold ret. by rewrite <- Hg, set_db_id.
  - simpl for_each. unfold bind at 1. unfold bind at 1.
    unfold execute. rewrite Hg. simpl.
    unfold ret at 1.
    rewrite (IH _ (replace_into d e)); [|done].
    by rewrite set_db_set_db.
Qed.

Lemma save_melon_chart_to_db_fresh chart w :
  g_db w = None ->
  save_melon_chart_to_db chart w
  = (Return tt,
     set_db w (foldl replace_into (delete_all (disk w)) chart) (Some None)
       ([Execute DELETE_melon_chart_data] ++ map insert_event chart ++ [Commit])).
Proof.
  intros Hg. unfold save_melon_chart_to_db.
  rewrite (bind_run _ _ _ _ _ (get_db_run _)). rewrite Hg.
  unfold bind at 1. unfold execute at 1. simpl.
  unfold bind at 1.
  erewrite for_each_insert; [|done].
  unfold commit. simpl.
  unfold set_db. simpl. do 2 f_equal.
  rewrite app_nil_r. by rewrite <- !app_assoc.
Qed.

Lemma save_melon_chart_to_db_run chart w :
  serve (save_melon_chart_to_db chart) w
  = (Return tt,
     set_db w (foldl replace_into (delete_all (disk w)) chart) None
       ([Execute DELETE_melon_chart_data] ++ map insert_event chart ++ [Commit])).
Proof.
  unfold serve. rewrite save_melon_chart_to_db_fresh; [|done].
  unfold close_db, set_db. simpl. by rewrite !app_nil_r.
Qed.

Lemma map_entry_sqlrow rows :
  map chart_sqlrow rows = map entry_sqlrow (map entry_of_row rows).
Proof. by rewrite map_map. Qed.

Lemma melon_chart_run w :
  serve melon_chart w
  = (Return (render_template
               (melon_chart_html
                  (map chart_sqlrow (merge_sort by_ranking (melon_chart_data (disk w)))))),
     set_db w (disk w) None [Execute SELECT_melon_chart_data]).
Proof.
  unfold serve, melon_chart.
  rewrite (bind_run _ _ _ _ _ (get_db_run _)).
  unfold bind, execute, ret, close_db. simpl.
  unfold set_db. simpl. by rewrite !app_nil_r.
Qed.

Lemma strictly_sorted_rows l :
  StronglySorted by_ranking l -> NoDup (map mc_ranking l) ->
  StronglySorted rank_lt (map entry_of_row l).
Proof.
  induction 1 as [|r l Hs IH Hall]; intros Hnd; simpl; [constructor|].
  apply NoDup_cons in Hnd as [Hnotin Hnd].
  constructor; [by apply IH|].
  apply Forall_forall. intros e He.
  apply list_elem_of_In, in_map_iff in He as (r' & <- & Hin).
  rewrite Forall_forall in Hall.
  pose proof (Hall r' (proj2 (list_elem_of_In _ _) Hin)) as Hle.
  unfold by_ranking in Hle. unfold rank_lt. simpl.
  destruct (decide (mc_ranking r = mc_ranking r')) as [Heq|]; [|lia].
  exfalso. apply Hnotin. rewrite Heq.
  apply list_elem_of_In, in_map. done.
Qed.

(** *** Entries displaced by later ones *)

Lemma elem_of_upsert x es e :
  x ∈ upsert_entry es e <-> (x ∈ es /\ rank x <> rank e) \/ x = e.
Proof.
  unfold upsert_entry. rewrite elem_of_app, list_elem_of_filter, list_elem_of_singleton.
  tauto.
Qed.

Lemma map_rank_filter k es :
  map rank (filter (fun x => rank x <> k) es) = filter (fun z => z <> k) (map rank es).
Proof.
  induction es as [|e es IH]; [done|].
  rewrite filter_cons. simpl. rewrite filter_cons.
  destruct (decide (rank e <> k)); simpl; by rewrite IH.
Qed.

Lemma upsert_NoDup es e :
  NoDup (map rank es) -> NoDup (map rank (upsert_entry es e)).
Proof.
  intros Hnd. unfold upsert_entry. rewrite map_app, map_rank_filter. simpl.
  apply NoDup_app. split; [by apply NoDup_filter|]. split; [|apply NoDup_singleton].
  intros z Hz. rewrite list_elem_of_filter in Hz. rewrite list_elem_of_singleton.
  tauto.
Qed.

Lemma foldl_upsert_NoDup chart es :
  NoDup (map rank es) -> NoDup (map rank (foldl upsert_entry es chart)).
Proof.
  revert es. induction chart as [|e chart IH]; intros es Hnd; [done|].
  simpl. by apply IH, upsert_NoDup.
Qed.

Lemma last_with_rank_snoc chart x e :
  last_with_rank (chart ++ [x]) e <->
  e = x \/ (last_with_rank chart e /\ rank x <> rank e).
Proof.
  unfold last_with_rank. split.
  - intros (pre & post & Heq & Hpost).
    destruct (decide (post = [])) as [->|Hne].
    + apply app_inj_tail in Heq as [_ ->]. by left.
    + destruct (exists_last Hne) as (post' & y & ->).
      rewrite app_comm_cons, app_assoc in Heq.
      apply app_inj_tail in Heq as [-> ->].
      apply Forall_app in Hpost as [Hpost Hy].
      right. split; [by exists pre, post'|].
      by rewrite Forall_singleton in Hy.
  - intros [->|[(pre & post & -> & Hpost) Hx]].
    + exists chart, []. split; [done|constructor].
    + exists pre, (post ++ [x]). split; [by rewrite <- app_assoc|].
      apply Forall_app. split; [done|]. by rewrite Forall_singleton.
Qed.

Lemma elem_of_foldl_upsert chart es e :
  e ∈ foldl upsert_entry es chart <->
  last_with_rank chart e \/ (e ∈ es /\ Forall (fun e' => rank e' <> rank e) chart).
Proof.
  induction chart as [|x chart IH] using rev_ind.
  - simpl. split; [intros H; right; split; [done|constructor]|].
    intros [(pre & post & Heq & _)|[H _]]; [|done].
    by destruct pre.
  - rewrite foldl_app. simpl. rewrite elem_of_upsert, IH, last_with_rank_snoc.
    rewrite Forall_app, Forall_singleton.
    intuition congruence.
Qed.

Lemma filter_all {A} (P : A -> Prop) `{!forall x, Decision (P x)} l :
  Forall P l -> filter P l = l.
Proof.
  induction 1 as [|x l Hx _ IH]; [done|].
  by rewrite filter_cons_True, IH.
Qed.

Lemma foldl_upsert_distinct chart es :
  NoDup (map rank (es ++ chart)) -> foldl upsert_entry es chart = es ++ chart.
Proof.
  revert es. induction chart as [|e chart IH]; intros es Hnd; simpl.
  - by rewrite app_nil_r.
  - assert (Hes : upsert_entry es e = es ++ [e]).
    { unfold upsert_entry. f_equal.
      apply filter_all, Forall_forall. intros x Hx Heq.
      rewrite map_app in Hnd. apply NoDup_app in Hnd as (_ & Hdisj & _).
      apply (Hdisj (rank x)).
      - apply list_elem_of_In, in_map. by apply list_elem_of_In.
      - rewrite Heq. simpl. left. }
    rewrite Hes. rewrite IH; rewrite <- app_assoc; done.
Qed.

(** ** The schema is kept *)

Lemma map_keyword_bump k rows :
  map sc_keyword (map (bump k) rows) = map sc_keyword rows.
Proof.
  rewrite map_map. apply map_ext. intros r. unfold bump.
  by destruct (decide (sc_keyword r = k)).
Qed.

Lemma map_ranking_filter k rows :
  map mc_ranking (filter (fun r => mc_ranking r <> k) rows)
  = filter (fun z => z <> k) (map mc_ranking rows).
Proof.
  induction rows as [|r rows IH]; [done|].
  rewrite filter_cons. simpl. rewrite filter_cons.
  destruct (decide (mc_ranking r <> k)); simpl; by rewrite IH.
Qed.

Lemma run_statement_schema_ok s d d' c :
  schema_ok d -> run_statement s d = Return (d', c) -> schema_ok d'.
Proof.
  intros [Hk Hr] Hrun. destruct s; simpl in Hrun.
  - injection Hrun as <- _. split; simpl; [by rewrite map_keyword_bump|done].
  - destruct (decide (keyword ∈ map sc_keyword (search_count d))) as [|Hnew]; [done|].
    injection Hrun as <- _. split; simpl; [|done].
    rewrite map_app. simpl. apply NoDup_app. split; [done|].
    split; [|apply NoDup_singleton].
    intros k Hin Heq. apply list_elem_of_singleton in Heq. by subst.
  - injection Hrun as <- _. split; simpl; [done|constructor].
  - injection Hrun as <- _. split; simpl; [done|].
    rewrite map_app, map_ranking_filter. simpl.
    apply NoDup_app. split; [by apply NoDup_filter|].
    split; [|apply NoDup_singleton].
    intros z Hz. rewrite list_elem_of_filter in Hz. rewrite list_elem_of_singleton. tauto.
  - by injection Hrun as <- _.
  - by injection Hrun as <- _.
  - by injection Hrun as <- _.
Qed.

Lemma preserves_ret {A} (a : A) : preserves (ret a).
Proof. by intros w Hw. Qed.

Lemma preserves_lift {A} (r : pyresult A) : preserves (lift r).
Proof. by intros w Hw. Qed.

Lemma preserves_bind {A B} (m : M A) (k : A -> M B) :
  preserves m -> (forall a, preserves (k a)) -> preserves (bind m k).
Proof.
  intros Hm Hk w Hw. unfold bind. specialize (Hm w Hw).
  destruct (m w) as [[a|e] w']; simpl in *; [by apply Hk|done].
Qed.

Lemma preserves_try_except {A} (body : M A) handler :
  preserves body -> (forall e, preserves (handler e)) -> preserves (try_except body handler).
Proof.
  intros Hm Hk w Hw. unfold try_except. specialize (Hm w Hw).
  destruct (body w) as [[a|e] w']; simpl in *; [done|by apply Hk].
Qed.

Lemma preserves_for_each {A} (l : list A) body :
  (forall x, preserves (body x)) -> preserves (for_each l body).
Proof.
  intros Hb. induction l as [|x l IH]; simpl.
  - apply preserves_ret.
  - apply preserves_bind; [apply Hb|by intros _].
Qed.

Lemma preserves_get_db : preserves get_db.
Proof.
  intros w Hw. unfold get_db. destruct (g_db w) eqn:E; simpl; [done|].
  destruct Hw as [Hd _]. split; [done|]. by intros d [=].
Qed.

Lemma preserves_execute s : preserves (execute s).
Proof.
  intros w Hw. unfold execute. destruct (g_db w) as [txn|] eqn:E; [|done].
  destruct Hw as [Hd Ht].
  assert (Hview : schema_ok (default (disk w) txn)).
  { destruct txn as [d|]; simpl; [by apply Ht|done]. }
  destruct (run_statement s (default (disk w) txn)) as [[d' c]|e] eqn:Hrun; simpl.
  - split; [done|]. intros d Hd'. destruct (writes s).
    + injection Hd' as <-. eapply run_statement_schema_ok; eauto.
    + injection Hd' as ->. by apply Ht.
  - split; [done|]. intros d Hd'. destruct (writes s).
    + by injection Hd' as <-.
    + injection Hd' as ->. by apply Ht.
Qed.

Lemma preserves_commit : preserves commit.
Proof.
  intros w Hw. unfold commit. destruct (g_db w) as [[d|]|] eqn:E; simpl.
  - destruct Hw as [Hd Ht]. split; [by apply Ht|]. by intros d' [=].
  - destruct Hw as [Hd Ht]. split; [done|]. by intros d' [=].
  - done.
Qed.

Lemma preserves_requests_get url headers timeout :
  preserves (requests_get url headers timeout).
Proof. by intros w Hw. Qed.

Lemma preserves_getenv name dflt : preserves (getenv name dflt).
Proof. by intros w Hw. Qed.

Lemma preserves_if {A} (b : bool) (m1 m2 : M A) :
  preserves m1 -> preserves m2 -> preserves (if b then m1 else m2).
Proof. by destruct b. Qed.

Ltac preserves_step :=
  first
    [ apply preserves_ret | apply preserves_lift | apply preserves_get_db
    | apply preserves_execute | apply preserves_commit
    | apply preserves_requests_get | apply preserves_getenv
    | apply preserves_bind; [|intros ?] | apply preserves_try_except; [|intros ?]
    | apply preserves_for_each; intros ? | apply preserves_if ].

Lemma preserves_increment_search_count k : preserves (increment_search_count k).
Proof. unfold increment_search_count. repeat preserves_step. Qed.

Lemma preserves_search_naver_blog q display sort :
  preserves (search_naver_blog q display sort).
Proof.
  unfold search_naver_blog, NAVER_CLIENT_ID, NAVER_CLIENT_SECRET.
  repeat preserves_step.
Qed.

Lemma preserves_fetch_melon_chart : preserves fetch_melon_chart.
Proof. unfold fetch_melon_chart. repeat preserves_step. Qed.

Lemma preserves_save_melon_chart_to_db chart : preserves (save_melon_chart_to_db chart).
Proof. unfold save_melon_chart_to_db. repeat preserves_step. Qed.

Lemma preserves_get_artist_count_ranking limit : preserves (get_artist_count_ranking limit).
Proof. unfold get_artist_count_ranking. repeat preserves_step. Qed.

Lemma preserves_blog q : preserves (blog q).
Proof.
  unfold blog. apply preserves_if; repeat preserves_step.
Qed.

Lemma preserves_melon_chart : preserves melon_chart.
Proof. unfold melon_chart. repeat preserves_step. Qed.

Lemma preserves_update_chart_db : preserves update_chart_db.
Proof.
  unfold update_chart_db.
  apply preserves_bind; [apply preserves_fetch_melon_chart|intros data].
  apply preserves_bind; [|intros _; apply preserves_ret].
  destruct data; [apply preserves_ret|apply preserves_save_melon_chart_to_db].
Qed.

Lemma preserves_artist_ranking : preserves artist_ranking.
Proof.
  unfold artist_ranking. repeat preserves_step.
Qed.

Lemma preserves_artist_search q : preserves (artist_search q).
Proof. unfold artist_search. apply preserves_if; repeat preserves_step. Qed.

Lemma serve_schema_ok {A} (handler : M A) w :
  preserves handler -> schema_ok (disk w) -> schema_ok (disk (serve handler w).2).
Proof.
  intros Hp Hd. unfold serve.
  assert (Hw : world_ok (set_db w (disk w) None [])).
  { split; [done|]. by intros d [=]. }
  specialize (Hp _ Hw).
  destruct (handler (set_db w (disk w) None [])) as [r w']. simpl in *.
  by destruct Hp.
Qed.

(** ** Fetching the chart *)

Lemma fetch_melon_chart_run w :
  fetch_melon_chart w
  = (Return (fetched (melon_answer w)), set_db w (disk w) (g_db w) [melon_request]).
Proof.
  unfold fetch_melon_chart, try_except, bind, requests_get, fetched, melon_answer.
  destruct (network w _ _) as [r|e]; [|done].
  destruct (status_code r =? 200); simpl; [|done].
  unfold lift. destruct (soup_select r) as [rows|e]; [|done].
  by destruct (parse_rows rows []).
Qed.

Lemma melon_answer_set_db w d g evs : melon_answer (set_db w d g evs) = melon_answer w.
Proof. done. Qed.

Lemma fetch_failure_fetched answer : fetch_failure answer -> fetched answer = [].
Proof.
  destruct 1 as [e|r Hs|r e Hp|r rows e Hp He]; simpl; [done|..].
  - destruct (Z.eqb_spec (status_code r) 200); [lia|done].
  - rewrite Hp. by destruct (negb _).
  - rewrite Hp, He. by destruct (negb _).
Qed.

Lemma update_chart_db_run w :
  serve update_chart_db w
  = match fetched (melon_answer w) with
    | [] => (Return (redirect "melon_chart"), set_db w (disk w) None [melon_request])
    | e :: chart =>
      (Return (redirect "melon_chart"),
       set_db w (foldl replace_into (delete_all (disk w)) (e :: chart)) None
         ([melon_request; Execute DELETE_melon_chart_data]
            ++ map insert_event (e :: chart) ++ [Commit]))
    end.
Proof.
  unfold serve, update_chart_db.
  rewrite (bind_run _ _ _ _ _ (fetch_melon_chart_run _)).
  rewrite melon_answer_set_db.
  destruct (fetched (melon_answer w)) as [|e chart].
  - unfold bind, ret, close_db, set_db. simpl. by rewrite !app_nil_r.
  - unfold bind at 1. rewrite save_melon_chart_to_db_fresh; [|done].
    unfold ret, close_db, set_db. simpl. by rewrite !app_nil_r, <- !app_assoc.
Qed.

(** ** Digits *)

Lemma decimal_value_in_spec zeros c d :
  decimal_value_in zeros c = Some d ->
  exists z, z ∈ zeros /\ (z <= c <= z + 9)%N /\ d = (c - z)%N.
Proof.
  induction zeros as [|z zeros IH]; simpl; [done|].
  unfold in_range. destruct ((z <=? c)%N && (c <=? z + 9)%N) eqn:H.
  - intros [= <-]. exists z. split; [left|]. split; [|done].
    apply andb_true_iff in H as [H1 H2]. apply N.leb_le in H1. apply N.leb_le in H2. lia.
  - intros Hd. destruct (IH Hd) as (z' & Hin & Hz). exists z'. split; [by right|done].
Qed.

Lemma decimal_zeros_ascii z : z ∈ decimal_zeros -> z = 48%N \/ (128 <= z)%N.
Proof.
  assert (H : forallb (fun z => (z =? 48)%N || (128 <=? z)%N) decimal_zeros = true)
    by (vm_compute; reflexivity).
  rewrite forallb_forall in H. intros Hin.
  apply list_elem_of_In, H in Hin.
  apply orb_true_iff in Hin as [Hz|Hz]; [left; by apply N.eqb_eq|right; by apply N.leb_le].
Qed.

Lemma decimal_value_bound c d : decimal_value c = Some d -> (d <= 9)%N.
Proof. intros H. apply decimal_value_in_spec in H as (z & _ & Hz & ->). lia. Qed.

Lemma decimal_value_ascii c d :
  decimal_value c = Some d -> (c < 128)%N -> c = (48 + d)%N.
Proof.
  intros H Hc. apply decimal_value_in_spec in H as (z & Hin & Hz & ->).
  apply decimal_zeros_ascii in Hin as [->|Hz']; lia.
Qed.

Lemma isspace_char_points c :
  isspace_char c = true ->
  c ∈ [9; 10; 11; 12; 13; 28; 29; 30; 31; 32; 133; 160; 5760; 8192; 8193; 8194;
       8195; 8196; 8197; 8198; 8199; 8200; 8201; 8202; 8232; 8233; 8239; 8287;
       12288]%N.
Proof.
  unfold isspace_char, in_range.
  rewrite !orb_true_iff, !andb_true_iff, !N.leb_le, !N.eqb_eq.
  intros H. rewrite !elem_of_cons, elem_of_nil. lia.
Qed.

Lemma isspace_not_digit c : isspace_char c = true -> isdigit_char c = false.
Proof.
  intros H. apply isspace_char_points in H.
  assert (Hall : forallb (fun c => negb (isdigit_char c))
            [9; 10; 11; 12; 13; 28; 29; 30; 31; 32; 133; 160; 5760; 8192; 8193; 8194;
             8195; 8196; 8197; 8198; 8199; 8200; 8201; 8202; 8232; 8233; 8239; 8287;
             12288]%N = true) by (vm_compute; reflexivity).
  rewrite forallb_forall in Hall. apply list_elem_of_In, Hall in H.
  by apply negb_true_iff in H.
Qed.

Lemma isdecimal_isdigit_char c : isdecimal_char c = true -> isdigit_char c = true.
Proof. unfold isdigit_char. by intros ->. Qed.

Lemma digit_only_not_ascii c :
  isdigit_char c = true -> decimal_value c = None -> (128 <= c)%N.
Proof.
  unfold isdigit_char, isdecimal_char. intros H Hd. rewrite Hd in H.
  change (existsb (fun r => in_range r.1 r.2 c) digit_only_ranges = true) in H.
  apply existsb_exists in H as ([lo hi] & Hin & Hr).
  assert (Hall : forallb (fun r => (128 <=? r.1)%N) digit_only_ranges = true)
    by (vm_compute; reflexivity).
  rewrite forallb_forall in Hall. apply Hall in Hin. simpl in *.
  unfold in_range in Hr. apply andb_true_iff in Hr as [Hr _].
  apply N.leb_le in Hin. apply N.leb_le in Hr. lia.
Qed.

Lemma int_ascii_decimal c d :
  decimal_value c = Some d -> int_ascii c = (48 + d)%N.
Proof.
  intros H. unfold int_ascii. destruct (N.ltb_spec c 128) as [Hc|Hc].
  - by apply decimal_value_ascii.
  - destruct (isspace_char c) eqn:Hs; [|by rewrite H].
    apply isspace_not_digit in Hs. unfold isdigit_char, isdecimal_char in Hs.
    by rewrite H in Hs.
Qed.

Lemma int_ascii_digit_only c :
  isdigit_char c = true -> decimal_value c = None -> int_ascii c = 63%N.
Proof.
  intros H Hd. unfold int_ascii.
  pose proof (digit_only_not_ascii c H Hd) as Hc.
  destruct (N.ltb_spec c 128); [lia|].
  destruct (isspace_char c) eqn:Hs; [|by rewrite Hd].
  apply isspace_not_digit in Hs. congruence.
Qed.

(** The characters [int] sees in a string that passed [isdigit]. *)
Lemma int_ascii_isdigit c :
  isdigit_char c = true ->
  in_range 48 57 (int_ascii c) = true \/ int_ascii c = 63%N.
Proof.
  intros H. destruct (decimal_value c) as [d|] eqn:Hd.
  - left. rewrite (int_ascii_decimal c d Hd).
    apply decimal_value_bound in Hd. unfold in_range.
    apply andb_true_iff. split; apply N.leb_le; lia.
  - right. by apply int_ascii_digit_only.
Qed.

Lemma lstrip_with_id sp s : Forall (fun c => sp c = false) s -> lstrip_with sp s = s.
Proof. destruct 1 as [|c s Hc _]; simpl; [done|by rewrite Hc]. Qed.

Lemma strip_with_id sp s : Forall (fun c => sp c = false) s -> strip_with sp s = s.
Proof.
  intros H. unfold strip_with. rewrite (lstrip_with_id sp s H).
  rewrite lstrip_with_id; [apply rev_involutive|].
  apply Forall_forall. intros c Hc. rewrite Forall_forall in H. apply H.
  apply list_elem_of_In. apply list_elem_of_In, in_rev in Hc. done.
Qed.

Lemma digits_value_decimal s acc :
  Forall (fun c => isdecimal_char c = true) s ->
  digits_value (map int_ascii s) acc true
  = Some (foldl (fun acc c => (acc * 10 + default 0 (decimal_value c))%N) acc s).
Proof.
  intros H. revert acc. induction H as [|c s Hc _ IH]; intros acc; simpl; [done|].
  unfold isdecimal_char in Hc. destruct (decimal_value c) as [d|] eqn:Hd; [|done].
  rewrite (int_ascii_decimal c d Hd).
  pose proof (decimal_value_bound c d Hd).
  unfold in_range.
  destruct (N.leb_spec 48 (48 + d)); [|lia].
  destruct (N.leb_spec (48 + d) 57); [|lia]. simpl.
  rewrite IH. do 3 f_equal. lia.
Qed.

Lemma digits_value_digit_only s acc prev :
  Forall (fun c => isdigit_char c = true) s ->
  Exists (fun c => decimal_value c = None) s ->
  digits_value (map int_ascii s) acc prev = None.
Proof.
  intros H. revert acc prev. induction H as [|c s Hc _ IH]; intros acc prev Hex.
  - by apply Exists_nil in Hex.
  - simpl. destruct (decimal_value c) as [d|] eqn:Hd.
    + apply Exists_cons in Hex as [Hex|Hex]; [congruence|].
      rewrite (int_ascii_decimal c d Hd).
      pose proof (decimal_value_bound c d Hd).
      unfold in_range.
      destruct (N.leb_spec 48 (48 + d)); [|lia].
      destruct (N.leb_spec (48 + d) 57); [|lia]. simpl.
      by apply IH.
    + by rewrite (int_ascii_digit_only c Hc Hd).
Qed.

Lemma isdigit_Forall s : isdigit s = true -> s <> [] /\ Forall (fun c => isdigit_char c = true) s.
Proof.
  destruct s as [|c s]; [done|]. unfold isdigit. intros H. split; [done|].
  apply Forall_forall. intros x Hx. rewrite forallb_forall in H.
  by apply H, list_elem_of_In.
Qed.

Lemma isdecimal_Forall s :
  isdecimal s = true -> s <> [] /\ Forall (fun c => isdecimal_char c = true) s.
Proof.
  destruct s as [|c s]; [done|]. unfold isdecimal. intros H. split; [done|].
  apply Forall_forall. intros x Hx. rewrite forallb_forall in H.
  by apply H, list_elem_of_In.
Qed.

Lemma isdecimal_isdigit s : isdecimal s = true -> isdigit s = true.
Proof.
  destruct s as [|c s]; [done|]. unfold isdecimal, isdigit. rewrite !forallb_forall.
  intros H x Hx. by apply isdecimal_isdigit_char, H.
Qed.

(** What [int] does with a string that passed [isdigit]: no blank to strip,
    no sign. *)
Lemma int_isdigit s :
  isdigit s = true ->
  int s = match digits_value (map int_ascii s) 0%N false with
          | Some n => Return (Z.of_N n)
          | None => Raise (ValueError invalid_literal)
          end.
Proof.
  intros H. apply isdigit_Forall in H as [Hne H]. unfold int.
  assert (Hchars : Forall (fun x => in_range 48 57 x = true \/ x = 63%N) (map int_ascii s)).
  { apply Forall_forall. intros x Hx.
    apply list_elem_of_In, in_map_iff in Hx as (c & <- & Hc).
    apply int_ascii_isdigit. rewrite Forall_forall in H. by apply H, list_elem_of_In. }
  rewrite strip_with_id.
  - destruct (map int_ascii s) as [|x t] eqn:E; [done|].
    apply Forall_cons in Hchars as [Hx _].
    assert (Hx' : (x =? 45)%N = false /\ (x =? 43)%N = false).
    { unfold in_range in Hx. split; apply N.eqb_neq; intros ->; by destruct Hx. }
    destruct Hx' as [-> ->]. done.
  - eapply Forall_impl; [exact Hchars|]. intros x [Hx| ->]; [|done].
    unfold in_range in Hx. apply andb_true_iff in Hx as [H1 H2].
    apply N.leb_le in H1. apply N.leb_le in H2.
    unfold c_isspace, in_range.
    destruct (N.leb_spec 9 x), (N.leb_spec x 13), (N.eqb_spec x 32); simpl; try done; lia.
Qed.

Lemma int_isdecimal s :
  isdecimal s = true -> int s = Return (Z.of_N (decimal_number s)).
Proof.
  intros H. rewrite (int_isdigit s (isdecimal_isdigit s H)).
  apply isdecimal_Forall in H as [Hne H].
  destruct s as [|c s]; [done|].
  apply Forall_cons in H as [Hc H].
  pose proof (digits_value_decimal (c :: s) 0%N (Forall_cons_2 _ _ _ Hc H)) as Hv.
  simpl in Hv. simpl.
  unfold isdecimal_char in Hc. destruct (decimal_value c) as [d|] eqn:Hd; [|done].
  rewrite (int_ascii_decimal c d Hd) in *.
  pose proof (decimal_value_bound c d Hd).
  unfold in_range in *.
  destruct (N.leb_spec 48 (48 + d)); [|lia].
  destruct (N.leb_spec (48 + d) 57); [|lia]. simpl in *.
  rewrite Hv. unfold decimal_number. simpl. by rewrite Hd.
Qed.

Lemma forallb_false_Exists {A} (f : A -> bool) l :
  forallb f l = false -> Exists (fun x => f x = false) l.
Proof.
  induction l as [|x l IH]; simpl; [done|].
  destruct (f x) eqn:E; simpl; [|by left]. intros H. right. by apply IH.
Qed.

Lemma int_digit_only s :
  isdigit s = true -> isdecimal s = false -> int s = Raise (ValueError invalid_literal).
Proof.
  intros H Hd. rewrite (int_isdigit s H).
  apply isdigit_Forall in H as [Hne H].
  rewrite digits_value_digit_only; [done|done|].
  destruct s as [|c s]; [done|]. unfold isdecimal in Hd.
  apply forallb_false_Exists in Hd.
  eapply Exists_impl; [exact Hd|]. intros x Hx.
  unfold isdecimal_char in Hx. by destruct (decimal_value x).
Qed.

(** ** The loop over the rows *)

Lemma parse_rows_decimal rows acc :
  Forall (fun row => included row -> decimal_rank row) rows ->
  parse_rows rows acc = Return (acc ++ map row_entry (filter included rows)).
Proof.
  intros H. revert acc. induction H as [|row rows Hrow _ IH]; intros acc.
  - simpl. by rewrite app_nil_r.
  - simpl parse_rows. fold (rank_text row) (title_text row) (artist_text row).
    destruct (decide (included row)) as [Hd|Hd].
    + rewrite filter_cons_True by done.
      rewrite (int_isdecimal _ (Hrow Hd)). unfold included in Hd. rewrite Hd, IH.
      simpl. by rewrite <- app_assoc.
    + rewrite filter_cons_False by done.
      unfold included in Hd. apply not_true_is_false in Hd. rewrite Hd. apply IH.
Qed.

Lemma parse_rows_digit_only rows acc :
  Exists (fun row => included row /\ ~ decimal_rank row) rows ->
  parse_rows rows acc = Raise (ValueError invalid_literal).
Proof.
  intros H. revert acc. induction rows as [|row rows IH]; intros acc.
  - by apply Exists_nil in H.
  - simpl parse_rows. fold (rank_text row).
    destruct (isdigit (rank_text row)) eqn:Hd.
    + destruct (isdecimal (rank_text row)) eqn:Hdec.
      * rewrite (int_isdecimal _ Hdec). apply IH.
        apply Exists_cons in H as [[_ H]|H]; [|done]. by destruct H.
      * by rewrite (int_digit_only _ Hd Hdec).
    + apply IH. apply Exists_cons in H as [[H _]|H]; [|done].
      unfold included in H. congruence.
Qed.

Lemma rows_dichotomy rows :
  Forall (fun row => included row -> decimal_rank row) rows \/
  Exists (fun row => included row /\ ~ decimal_rank row) rows.
Proof.
  induction rows as [|row rows [IH|IH]]; [by left| |right; by right].
  destruct (isdigit (rank_text row)) eqn:Hd.
  - destruct (isdecimal (rank_text row)) eqn:Hdec.
    + left. constructor; [by intros _|done].
    + right. left. unfold included, decimal_rank. split; [done|congruence].
  - left. constructor; [|done]. unfold included. congruence.
Qed.

Lemma parse_rows_Return rows chart :
  parse_rows rows [] = Return chart -> chart = map row_entry (filter included rows).
Proof.
  destruct (rows_dichotomy rows) as [H|H].
  - rewrite (parse_rows_decimal rows [] H). by intros [= <-].
  - by rewrite (parse_rows_digit_only rows [] H).
Qed.

Lemma fields_of_row_entry row : fields_of row (row_entry row).
Proof.
  unfold fields_of, row_entry, title_text, artist_text. simpl.
  by destruct (title_el row), (artist_el row).
Qed.

Lemma Forall2_fields_of rows : Forall2 fields_of rows (map row_entry rows).
Proof.
  induction rows as [|x rows IH]; simpl; constructor; [apply fields_of_row_entry|done].
Qed.

(** ** Counting searches *)

Lemma filter_keyword_nil k rows :
  k ∉ map sc_keyword rows -> filter (fun r => sc_keyword r = k) rows = [].
Proof.
  induction rows as [|r rows IH]; [done|]. simpl. intros Hk.
  rewrite not_elem_of_cons in Hk. destruct Hk as [Hne Hk].
  rewrite filter_cons_False by congruence. by apply IH.
Qed.

Lemma filter_keyword_cons k rows :
  k ∈ map sc_keyword rows -> filter (fun r => sc_keyword r = k) rows <> [].
Proof.
  intros Hk Hnil. apply list_elem_of_In, in_map_iff in Hk as (r & Hr & Hin).
  assert (Hf : r ∈ filter (fun r => sc_keyword r = k) rows).
  { apply list_elem_of_filter. split; [done|by apply list_elem_of_In]. }
  rewrite Hnil in Hf. by apply elem_of_nil in Hf.
Qed.

Lemma map_bump_id k rows : k ∉ map sc_keyword rows -> map (bump k) rows = rows.
Proof.
  induction rows as [|r rows IH]; [done|]. simpl. intros Hk.
  rewrite not_elem_of_cons in Hk. destruct Hk as [Hne Hk].
  rewrite IH by done. unfold bump.
  destruct (decide (sc_keyword r = k)); [congruence|done].
Qed.

Lemma Database_eta d :
  {| search_count := search_count d; melon_chart_data := melon_chart_data d;
     seq_search_count := seq_search_count d;
     seq_melon_chart_data := seq_melon_chart_data d |} = d.
Proof. by destruct d. Qed.

Lemma increment_search_count_fresh k w :
  g_db w = None ->
  increment_search_count k w
  = (Return tt,
     set_db w (record_search k (disk w)) (Some None) (record_search_events k (disk w))).
Proof.
  intros Hg. unfold increment_search_count.
  rewrite (bind_run _ _ _ _ _ (get_db_run _)). rewrite Hg.
  unfold bind at 1. unfold execute at 1. simpl.
  unfold record_search, record_search_events.
  destruct (decide (k ∈ map sc_keyword (search_count (disk w)))) as [Hk|Hk].
  - pose proof (filter_keyword_cons k _ Hk) as Hne.
    destruct (filter (fun r => sc_keyword r = k) (search_count (disk w))) as [|r hit] eqn:E;
      [done|].
    unfold bind at 1. simpl length.
    replace (Z.of_nat (S (length hit)) =? 0) with false
      by (symmetry; apply Z.eqb_neq; lia).
    unfold ret at 1. unfold commit, set_db. simpl. by rewrite ?app_nil_r, <- ?app_assoc.
  - rewrite (filter_keyword_nil k _ Hk). simpl.
    unfold bind, execute. simpl.
    rewrite map_keyword_bump.
    destruct (decide (k ∈ map sc_keyword (search_count (disk w)))) as [|_]; [done|].
    simpl. unfold ret, commit, set_db. simpl.
    rewrite (map_bump_id k _ Hk).
    by rewrite ?app_nil_r, <- ?app_assoc.
Qed.

Lemma increment_search_count_run k w :
  serve (increment_search_count k) w
  = (Return tt,
     set_db w (record_search k (disk w)) None (record_search_events k (disk w))).
Proof.
  unfold serve. rewrite increment_search_count_fresh; [|done].
  unfold close_db, set_db. simpl. by rewrite !app_nil_r.
Qed.

Lemma counted_once_bump k rows : Forall2 (counted_once k) rows (map (bump k) rows).
Proof.
  induction rows as [|r rows IH]; simpl; constructor; [|done].
  unfold counted_once, bump. destruct (decide (sc_keyword r = k)); simpl; repeat split; lia.
Qed.

Lemma records_of_bump k d i n :
  records_of k d = [{| sc_id := i; sc_keyword := k; sc_count := n |}] ->
  records_of k (record_search k d) = [{| sc_id := i; sc_keyword := k; sc_count := n + 1 |}].
Proof.
  intros H. unfold record_search.
  assert (Hk : k ∈ map sc_keyword (search_count d)).
  { destruct (decide (k ∈ map sc_keyword (search_count d))) as [|Hk]; [done|].
    unfold records_of in H. by rewrite (filter_keyword_nil k _ Hk) in H. }
  destruct (decide (k ∈ map sc_keyword (search_count d))) as [_|]; [|done].
  unfold records_of in *. simpl.
  assert (Hkw : forall r, sc_keyword (bump k r) = sc_keyword r).
  { intros r. unfold bump. by destruct (decide (sc_keyword r = k)). }
  assert (Hf : forall rows,
    filter (fun r => sc_keyword r = k) (map (bump k) rows)
    = map (bump k) (filter (fun r => sc_keyword r = k) rows)).
  { induction rows as [|r rows IH]; [done|]. simpl.
    destruct (decide (sc_keyword r = k)) as [E|E].
    - rewrite !filter_cons_True by (by rewrite ?Hkw). simpl. by rewrite IH.
    - rewrite !filter_cons_False by (by rewrite ?Hkw). by rewrite IH. }
  rewrite Hf, H. simpl. unfold bump. simpl.
  by destruct (decide (k = k)).
Qed.

Lemma records_of_new k d :
  k ∉ map sc_keyword (search_count d) ->
  exists i, records_of k (record_search k d) = [{| sc_id := i; sc_keyword := k; sc_count := 1 |}].
Proof.
  intros Hk. unfold record_search.
  destruct (decide (k ∈ map sc_keyword (search_count d))) as [|_]; [done|].
  eexists. unfold records_of. simpl.
  rewrite filter_app, (filter_keyword_nil k _ Hk). simpl.
  rewrite filter_cons_True by done. done.
Qed.

Lemma search_again_disk k w : disk (search_again k w) = record_search k (disk w).
Proof. unfold search_again. by rewrite increment_search_count_run. Qed.

(** ** Credentials *)

Lemma lstrip_with_blank sp s : Forall (fun c => sp c = true) s -> lstrip_with sp s = [].
Proof. induction 1 as [|c s Hc _ IH]; simpl; [done|by rewrite Hc]. Qed.

Lemma strip_blank s : Forall (fun c => isspace_char c = true) s -> strip s = [].
Proof. intros H. unfold strip, strip_with. by rewrite (lstrip_with_blank _ s H). Qed.

Lemma missing_or_blank_strip v : missing_or_blank v -> strip (default (py "") v) = [].
Proof. destruct v as [s|]; simpl; [apply strip_blank|done]. Qed.

(** ** Ranking artists *)

Lemma get_artist_count_ranking_run limit w :
  serve (get_artist_count_ranking limit) w
  = (Return (map artist_count_sqlrow
               (limit_rows limit
                  (merge_sort by_count_then_artist
                     (group_by_artist (melon_chart_data (disk w)))))),
     set_db w (disk w) None [Execute (SELECT_artist_song_count limit)]).
Proof.
  unfold serve, get_artist_count_ranking.
  rewrite (bind_run _ _ _ _ _ (get_db_run _)).
  unfold bind, execute, ret, close_db. simpl.
  unfold set_db. simpl. by rewrite !app_nil_r.
Qed.

Lemma limit_rows_nat {A} (n : nat) (l : list A) : limit_rows (Z.of_nat n) l = take n l.
Proof.
  unfold limit_rows. destruct (Z.ltb_spec (Z.of_nat n) 0); [lia|].
  by rewrite Nat2Z.id.
Qed.

Lemma limit_rows_negative {A} (n : Z) (l : list A) : n < 0 -> limit_rows n l = l.
Proof. unfold limit_rows. destruct (Z.ltb_spec n 0); [done|lia]. Qed.

Lemma song_count_songs_by rows a :
  song_count rows a = songs_by a (map entry_of_row rows).
Proof.
  unfold song_count, songs_by. f_equal.
  induction rows as [|r rows IH]; [done|]. simpl.
  destruct (decide (mc_artist r = a)) as [E|E].
  - rewrite !filter_cons_True by done. simpl. by rewrite IH.
  - rewrite !filter_cons_False by done. done.
Qed.

Lemma songs_by_pos a entries : a ∈ map artist entries <-> 0 < songs_by a entries.
Proof.
  unfold songs_by. induction entries as [|e entries IH]; simpl.
  - split; [by intros H%elem_of_nil|lia].
  - destruct (decide (artist e = a)) as [E|E].
    + rewrite filter_cons_True by done. simpl. split; [lia|]. intros _. rewrite E. left.
    + rewrite filter_cons_False by done. rewrite elem_of_cons, IH.
      split; [intros [?|?]; [congruence|done]|by right].
Qed.

Lemma map_artist_rows rows : map mc_artist rows = map artist (map entry_of_row rows).
Proof. by rewrite map_map. Qed.

Lemma elem_of_group_by_artist rows a n :
  (a, n) ∈ group_by_artist rows <->
  0 < n /\ n = songs_by a (map entry_of_row rows).
Proof.
  unfold group_by_artist. rewrite list_elem_of_In, in_map_iff. split.
  - intros (a' & [= -> <-] & Hin).
    apply list_elem_of_In in Hin. rewrite elem_of_remove_dups in Hin.
    rewrite map_artist_rows in Hin. rewrite song_count_songs_by.
    split; [by apply songs_by_pos|done].
  - intros [Hpos ->]. exists a. split; [by rewrite song_count_songs_by|].
    apply list_elem_of_In. rewrite elem_of_remove_dups, map_artist_rows.
    by apply songs_by_pos.
Qed.

Lemma NoDup_group_by_artist rows : NoDup (map fst (group_by_artist rows)).
Proof.
  unfold group_by_artist. rewrite map_map. simpl. rewrite map_id.
  apply NoDup_remove_dups.
Qed.

Lemma strictly_ranked l :
  StronglySorted by_count_then_artist l -> NoDup (map fst l) ->
  StronglySorted ranks_before l.
Proof.
  induction 1 as [|x l Hs IH Hall]; intros Hnd; simpl; [constructor|].
  simpl in Hnd. apply NoDup_cons in Hnd as [Hnotin Hnd].
  constructor; [by apply IH|].
  apply Forall_forall. intros y Hy. rewrite Forall_forall in Hall.
  destruct (Hall y Hy) as [H|[H1 [H2|H2]]]; [by left| |by right].
  exfalso. apply Hnotin. rewrite H2. apply list_elem_of_In, in_map.
  by apply list_elem_of_In.
Qed.

Lemma group_by_artist_artists rows rows' :
  map mc_artist rows = map mc_artist rows' -> group_by_artist rows = group_by_artist rows'.
Proof.
  intros H. unfold group_by_artist. rewrite H. apply map_ext. intros a. f_equal.
  rewrite !song_count_songs_by. unfold songs_by. f_equal.
  assert (Hc : forall l, length (filter (fun e => artist e = a) l)
                         = length (filter (fun x => x = a) (map artist l))).
  { induction l as [|e l IH]; [done|]. simpl.
    destruct (decide (artist e = a)).
    - rewrite !filter_cons_True by done. simpl. by rewrite IH.
    - rewrite !filter_cons_False by done. done. }
  by rewrite !Hc, <- !map_artist_rows, H.
Qed.

(** ** LIKE *)

Lemma like_percent_unfold p s :
  like (percent :: p) s
  = like p s || match s with [] => false | _ :: s' => like (percent :: p) s' end.
Proof. by destruct s. Qed.

Lemma like_literal_unfold c p s :
  c <> percent -> c <> underscore ->
  like (c :: p) s
  = match s with
    | [] => false
    | d :: s' => (sqlite3Tolower c =? sqlite3Tolower d)%N && like p s'
    end.
Proof.
  intros H1 H2. simpl.
  apply N.eqb_neq in H1. apply N.eqb_neq in H2. rewrite H1.
  destruct s as [|d s']; [done|]. by rewrite H2.
Qed.

Lemma like_percent p s :
  like (percent :: p) s = true <-> exists pre post, s = pre ++ post /\ like p post = true.
Proof.
  induction s as [|d s IH]; rewrite like_percent_unfold.
  - rewrite orb_false_r. split.
    + intros H. by exists [], [].
    + intros (pre & post & Heq & H). symmetry in Heq.
      apply app_eq_nil in Heq as [_ ->]. done.
  - rewrite orb_true_iff, IH. split.
    + intros [H|(pre & post & -> & H)]; [by exists [], (d :: s)|].
      by exists (d :: pre), post.
    + intros ([|d' pre] & post & Heq & H); simpl in Heq.
      * left. by subst post.
      * right. injection Heq as -> ->. by exists pre, post.
Qed.

Lemma like_only_percent s : like [percent] s = true.
Proof. apply like_percent. exists s, []. split; [by rewrite app_nil_r|done]. Qed.

Lemma like_literal q rest s :
  no_wildcard q ->
  like (q ++ rest) s = true <->
  exists mid post, s = mid ++ post /\ same_nocase mid q /\ like rest post = true.
Proof.
  intros [Hp Hu]. revert s. induction q as [|c q IH]; intros s.
  - simpl. split.
    + intros H. by exists [], s.
    + intros (mid & post & -> & Hm & H). unfold same_nocase in Hm.
      destruct mid; [done|discriminate].
  - apply not_elem_of_cons in Hp as [Hc1 Hp]. apply not_elem_of_cons in Hu as [Hc2 Hu].
    simpl app. rewrite like_literal_unfold by done.
    destruct s as [|d s]; [split; [done|] |].
    + intros (mid & post & Heq & Hm & _). symmetry in Heq.
      apply app_eq_nil in Heq as [-> _]. discriminate.
    + rewrite andb_true_iff, N.eqb_eq, (IH Hp Hu). split.
      * intros [Hcd (mid & post & -> & Hm & H)].
        exists (d :: mid), post. split; [done|]. split; [|done].
        unfold same_nocase in *. simpl. by rewrite Hcd, Hm.
      * intros ([|d' mid] & post & Heq & Hm & H); [discriminate|].
        injection Heq as -> ->. unfold same_nocase in Hm. injection Hm as Hcd Hm.
        split; [done|]. by exists mid, post.
Qed.

Lemma like_contains q s :
  no_wildcard q ->
  like ([percent] ++ q ++ [percent]) s = true <-> contains_nocase q s.
Proof.
  intros Hq. simpl app. rewrite like_percent. unfold contains_nocase. split.
  - intros (pre & post & -> & H). apply (like_literal q [percent] post Hq) in H.
    destruct H as (mid & post' & -> & Hm & _). by exists pre, mid, post'.
  - intros (pre & mid & post & -> & Hm). exists pre, (mid ++ post). split; [done|].
    apply (like_literal q [percent] _ Hq). exists mid, post.
    split; [done|]. split; [done|apply like_only_percent].
Qed.

(** ** Searching by artist *)

Lemma artist_search_run q w :
  serve (artist_search q) w
  = if bool_decide (arg_or_empty q <> []) then
      (Return (render_template
                 (artist_search_html (arg_or_empty q)
                    (map chart_sqlrow
                       (merge_sort by_ranking
                          (filter (fun r => like ([percent] ++ arg_or_empty q ++ [percent])
                                              (mc_artist r) = true)
                             (melon_chart_data (disk w))))))),
       set_db w (disk w) None
         [Execute (SELECT_melon_chart_data_LIKE ([percent] ++ arg_or_empty q ++ [percent]))])
    else
      (Return (render_template (artist_search_html (arg_or_empty q) [])),
       set_db w (disk w) None []).
Proof.
  unfold serve, artist_search.
  destruct (bool_decide (arg_or_empty q <> [])).
  - rewrite (bind_run _ _ _ _ _ (get_db_run _)).
    unfold bind, execute, ret, close_db. simpl.
    unfold set_db. simpl. by rewrite !app_nil_r.
  - unfold ret, close_db, set_db. simpl. by rewrite !app_nil_r.
Qed.

Lemma filter_like_entries pattern rows :
  map entry_of_row (filter (fun r => like pattern (mc_artist r) = true) rows)
  = filter (fun e => like pattern (artist e) = true) (map entry_of_row rows).
Proof.
  induction rows as [|r rows IH]; [done|]. simpl.
  destruct (decide (like pattern (mc_artist r) = true)).
  - rewrite !filter_cons_True by done. simpl. by rewrite IH.
  - rewrite !filter_cons_False by done. done.
Qed.

Lemma sorted_rows_le l :
  StronglySorted by_ranking l -> StronglySorted rank_le (map entry_of_row l).
Proof.
  induction 1 as [|r l Hs IH Hall]; simpl; constructor; [done|].
  apply Forall_forall. intros e He.
  apply list_elem_of_In, in_map_iff in He as (r' & <- & Hin).
  rewrite Forall_forall in Hall. apply (Hall r'). by apply list_elem_of_In.
Qed.

Lemma NoDup_map_filter {A B} (f : A -> B) (P : A -> Prop) `{!forall x, Decision (P x)} l :
  NoDup (map f l) -> NoDup (map f (filter P l)).
Proof.
  induction l as [|x l IH]; [done|]. simpl. intros [Hx Hnd]%NoDup_cons.
  destruct (decide (P x)).
  - rewrite filter_cons_True by done. simpl. apply NoDup_cons. split; [|by apply IH].
    intros Hin. apply Hx. apply list_elem_of_In, in_map_iff in Hin as (y & Hy & Hin).
    apply list_elem_of_In, list_elem_of_filter in Hin as [_ Hin].
    rewrite <- Hy. apply list_elem_of_In, in_map. by apply list_elem_of_In.
  - rewrite filter_cons_False by done. by apply IH.
Qed.

(** * The claims *)

(** C1.  For a chart whose ranks are pairwise distinct, of entries the
    engine takes (ranks of the INTEGER class, texts), saving it and then
    serving /melon-chart shows exactly the entries of the chart, in the order
    of ascending rank; the stored snapshot is the chart itself, whatever the
    file held before. *)
Theorem replace_all_then_read (w : world) (chart : list ChartEntry) :
  NoDup (map rank chart) ->
  Forall bindable chart ->
  exists w1 shown,
    serve (save_melon_chart_to_db chart) w = (Return tt, w1) /\
    snapshot (disk w1) = chart /\
    shows_chart (serve melon_chart w1).1 shown /\
    shown ≡ₚ chart /\
    StronglySorted rank_lt shown.
Proof.
  intros Hnd _.
  assert (Hsnap : snapshot (foldl replace_into (delete_all (disk w)) chart) = chart).
  { rewrite snapshot_foldl, snapshot_delete_all. by apply foldl_upsert_distinct. }
  eexists _, (map entry_of_row
                (merge_sort by_ranking
                   (melon_chart_data (foldl replace_into (delete_all (disk w)) chart)))).
  split; [apply save_melon_chart_to_db_run|].
  split; [exact Hsnap|].
  rewrite melon_chart_run. simpl disk. unfold snapshot in Hsnap.
  remember (melon_chart_data (foldl replace_into (delete_all (disk w)) chart)) as rows.
  clear Heqrows.
  split; [unfold shows_chart; cbn [fst]; by rewrite map_entry_sqlrow|].
  pose proof (merge_sort_Permutation by_ranking rows) as Hperm.
  split.
  - rewrite <- Hsnap. by apply Permutation_map.
  - apply strictly_sorted_rows.
    + apply (StronglySorted_merge_sort by_ranking).
    + rewrite (Permutation_map mc_ranking Hperm).
      replace (map mc_ranking rows) with (map rank (map entry_of_row rows))
        by (by rewrite map_map).
      by rewrite Hsnap.
Qed.

(** A chart given out of order, saved over the sample snapshot. *)
Lemma replace_all_then_read_witness :
  let chart := [entry 3 "C" "Z"; entry 1 "A" "X"; entry 2 "B" "Y"] in
  (NoDup (map rank chart) /\ Forall bindable chart) /\
  exists w1 shown,
    serve (save_melon_chart_to_db chart) (offline sample_db) = (Return tt, w1) /\
    snapshot (disk w1) = chart /\
    shows_chart (serve melon_chart w1).1 shown /\
    shown ≡ₚ chart /\
    StronglySorted rank_lt shown.
Proof.
  assert (Hnd : NoDup (map rank [entry 3 "C" "Z"; entry 1 "A" "X"; entry 2 "B" "Y"])).
  { by apply (bool_decide_unpack _). }
  assert (Hb : Forall bindable [entry 3 "C" "Z"; entry 1 "A" "X"; entry 2 "B" "Y"]).
  { by apply (bool_decide_unpack _). }
  split; [by split|].
  exact (replace_all_then_read (offline sample_db) _ Hnd Hb).
Defined.

(** C2.  When the fetch of a refresh yields the empty sequence, the refresh
    only redirects: the one event of the request is the HTTP GET, no statement
    is executed and nothing committed, the database file is the same, and
    /melon-chart shows afterwards what it showed before. *)
Theorem refresh_with_empty_fetch (w : world) :
  (fetch_melon_chart w).1 = Return [] ->
  exists w1,
    serve update_chart_db w = (Return (redirect "melon_chart"), w1) /\
    trace w1 = trace w ++ [melon_request] /\
    disk w1 = disk w /\
    (serve melon_chart w1).1 = (serve melon_chart w).1.
Proof.
  rewrite fetch_melon_chart_run. cbn [fst]. intros [= Hf].
  eexists. rewrite update_chart_db_run, Hf. split; [reflexivity|].
  split; [done|]. split; [done|]. by rewrite !melon_chart_run.
Qed.

(** The network is down: the sample snapshot stays. *)
Lemma refresh_with_empty_fetch_witness :
  (fetch_melon_chart (offline sample_db)).1 = Return [] /\
  exists w1,
    serve update_chart_db (offline sample_db) = (Return (redirect "melon_chart"), w1) /\
    trace w1 = trace (offline sample_db) ++ [melon_request] /\
    disk w1 = disk (offline sample_db) /\
    (serve melon_chart w1).1 = (serve melon_chart (offline sample_db)).1.
Proof.
  split; [reflexivity|].
  apply (refresh_with_empty_fetch (offline sample_db)). reflexivity.
Defined.

(** C3.  A page of three rows whose second rank is a superscript two: the
    text passes [isdigit], [int] raises on it, and the fetch returns no entry
    at all, where dropping the one row would have left the entries of ranks
    1 and 3. *)
Theorem superscript_rank_empties_the_chart :
  let rows := [row "1" "A" "X"; row "²" "B" "Y"; row "3" "C" "Z"] in
  isdigit (py "²") = true /\
  isdecimal (py "²") = false /\
  parse_rows rows [] = Raise (ValueError invalid_literal) /\
  (fetch_melon_chart (online sample_db rows)).1 = Return [] /\
  map row_entry (filter decimal_rank rows) = [entry 1 "A" "X"; entry 3 "C" "Z"].
Proof. vm_compute. by repeat split. Qed.

(** The scenario of a page of three rows with one rank that is not a
    number: the row is dropped, the two others are returned in page order. *)
Example malformed_rank_is_dropped :
  (fetch_melon_chart
     (online sample_db [row "2" "B" "Y"; row "N/A" "-" "-"; row "1" "A" "X"])).1
  = Return [entry 2 "B" "Y"; entry 1 "A" "X"].
Proof. reflexivity. Qed.

(** On a page none of whose ranks passes [isdigit] without being decimal,
    the fetch returns the entries of the rows with a decimal rank, and only
    those, in page order. *)
Lemma fetched_decimal (r : response) (rows : list row_el) :
  status_code r = 200 ->
  soup_select r = Return rows ->
  Forall (fun row => included row -> decimal_rank row) rows ->
  fetched (Return r) = map row_entry (filter decimal_rank rows).
Proof.
  intros Hst Hrows Hall. unfold fetched. rewrite Hst, Hrows. simpl.
  rewrite (parse_rows_decimal rows [] Hall). simpl. f_equal.
  clear Hrows. induction Hall as [|x l Hx _ IH]; [done|].
  destruct (decide (included x)) as [Hi|Hi].
  - rewrite !filter_cons_True by auto. by rewrite IH.
  - assert (Hd : ~ decimal_rank x) by (intros Hd; by apply Hi, isdecimal_isdigit).
    by rewrite !filter_cons_False.
Qed.

(** One rank that passes [isdigit] without being decimal empties the fetch,
    wherever its row stands in the page. *)
Lemma fetched_digit_only (r : response) (rows : list row_el) :
  soup_select r = Return rows ->
  Exists (fun row => included row /\ ~ decimal_rank row) rows ->
  fetched (Return r) = [].
Proof.
  intros Hrows Hex. unfold fetched. rewrite Hrows.
  rewrite (parse_rows_digit_only rows [] Hex). by destruct (negb _).
Qed.

(** C4.  A request that records the keyword [k] returns normally, from any
    state of the store.  If [k] has a record, every row is kept, the count of
    the rows of [k] is one higher and no count of another keyword moves; if it
    has none, one row for [k] with count 1 is added after the others.
    Starting without a record for [k], after N = n + 1 such requests in a row
    the store holds exactly one row for [k], and its count is N. *)
Theorem record_search_upserts (w : world) (k : str) (n : nat) :
  (exists w1,
     serve (increment_search_count k) w = (Return tt, w1) /\
     (k ∈ map sc_keyword (search_count (disk w)) ->
      Forall2 (counted_once k) (search_count (disk w)) (search_count (disk w1))) /\
     (k ∉ map sc_keyword (search_count (disk w)) ->
      exists i,
        search_count (disk w1)
        = search_count (disk w) ++ [{| sc_id := i; sc_keyword := k; sc_count := 1 |}])) /\
  (k ∉ map sc_keyword (search_count (disk w)) ->
   exists i,
     records_of k (disk (Nat.iter (S n) (search_again k) w))
     = [{| sc_id := i; sc_keyword := k; sc_count := Z.of_nat (S n) |}]).
Proof.
  split.
  - eexists. split; [apply increment_search_count_run|]. simpl disk.
    unfold record_search.
    destruct (decide (k ∈ map sc_keyword (search_count (disk w)))) as [Hk|Hk].
    + split; [|done]. intros _. apply counted_once_bump.
    + split; [done|]. intros _. by eexists.
  - intros Hk. induction n as [|n [i IH]].
    + simpl Nat.iter. rewrite search_again_disk. by apply records_of_new.
    + exists i. rewrite Nat.iter_succ, search_again_disk.
      rewrite (records_of_bump k _ i _ IH). do 2 f_equal. lia.
Qed.

(** Three searches for a keyword the store has not seen. *)
Lemma record_search_upserts_witness :
  let w := offline init_db in
  let k := py "melon" in
  (k ∉ map sc_keyword (search_count (disk w))) /\
  exists i,
    records_of k (disk (Nat.iter 3 (search_again k) w))
    = [{| sc_id := i; sc_keyword := k; sc_count := 3 |}].
Proof.
  assert (Hk : py "melon" ∉ map sc_keyword (search_count (disk (offline init_db)))).
  { apply not_elem_of_nil. }
  split; [exact Hk|].
  exact (proj2 (record_search_upserts (offline init_db) (py "melon") 2) Hk).
Defined.

(** C5.  For every snapshot and every limit (a number of rows), the artist
    ranking is the first [limit] pairs of a list that has one pair per artist
    of the snapshot, each with the number of the artist's entries, in the
    order of descending count and, among equal counts, ascending artist name;
    so it has at most [limit] pairs.  On the snapshot
    [{1,"T1","X"}, {2,"T2","X"}, {3,"T3","Y"}] and a limit of two or more
    (ten, for the route) it is [("X",2), ("Y",1)]. *)
Theorem artist_song_counts (w : world) (limit : nat) :
  exists ranking,
    (serve (get_artist_count_ranking (Z.of_nat limit)) w).1
    = Return (map artist_count_sqlrow (take limit ranking)) /\
    NoDup (map fst ranking) /\
    (forall a n, (a, n) ∈ ranking <-> 0 < n /\ n = songs_by a (snapshot (disk w))) /\
    StronglySorted ranks_before ranking /\
    (length (take limit ranking) <= limit)%nat /\
    (snapshot (disk w) = [entry 1 "T1" "X"; entry 2 "T2" "X"; entry 3 "T3" "Y"] ->
     (2 <= limit)%nat ->
     (serve (get_artist_count_ranking (Z.of_nat limit)) w).1
     = Return [[VText (py "X"); VInt 2]; [VText (py "Y"); VInt 1]]).
Proof.
  exists (merge_sort by_count_then_artist (group_by_artist (melon_chart_data (disk w)))).
  rewrite get_artist_count_ranking_run. cbn [fst]. rewrite limit_rows_nat.
  pose proof (merge_sort_Permutation by_count_then_artist
                (group_by_artist (melon_chart_data (disk w)))) as Hperm.
  assert (Hnd : NoDup (map fst (merge_sort by_count_then_artist
                                  (group_by_artist (melon_chart_data (disk w)))))).
  { rewrite (Permutation_map fst Hperm). apply NoDup_group_by_artist. }
  split; [done|]. split; [exact Hnd|].
  split; [intros a n; rewrite Hperm; apply elem_of_group_by_artist|].
  split.
  { apply strictly_ranked; [|exact Hnd].
    apply (StronglySorted_merge_sort by_count_then_artist). }
  split; [rewrite length_take; lia|].
  intros Hsnap Hlimit.
  rewrite (group_by_artist_artists _ (melon_chart_data sample_db)).
  - assert (Hsorted : merge_sort by_count_then_artist
                        (group_by_artist (melon_chart_data sample_db))
                      = [(py "X", 2); (py "Y", 1)]) by (by vm_compute).
    rewrite Hsorted, take_ge by (simpl; lia). reflexivity.
  - rewrite map_artist_rows. unfold snapshot in Hsnap. by rewrite Hsnap.
Qed.

(** A negative limit is no limit to SQLite: the whole ranking comes back. *)
Remark negative_limit_is_no_limit (w : world) (limit : Z) :
  limit < 0 ->
  (serve (get_artist_count_ranking limit) w).1
  = Return (map artist_count_sqlrow
              (merge_sort by_count_then_artist
                 (group_by_artist (melon_chart_data (disk w))))).
Proof.
  intros H. rewrite get_artist_count_ranking_run. cbn [fst].
  by rewrite limit_rows_negative.
Qed.

(** C6, as the claim states it, fails: on the sample snapshot the query "x"
    returns the two entries of the artist "X", and "X" does not contain "x". *)
Lemma artist_search_is_not_literal :
  ~ (forall (w : world) (q : str) (rows : list sqlrow),
       (serve (artist_search (Some q)) w).1
       = Return (render_template (artist_search_html (strip q) rows)) ->
       forall e, entry_sqlrow e ∈ rows <-> e ∈ snapshot (disk w) /\ substring q (artist e)).
Proof.
  intros H.
  specialize (H (offline sample_db) (py "x") _ eq_refl (entry 1 "T1" "X")).
  destruct H as [H _].
  assert (Hin : entry_sqlrow (entry 1 "T1" "X")
                ∈ [[VInt 1; VText (py "T1"); VText (py "X")];
                   [VInt 2; VText (py "T2"); VText (py "X")]]) by left.
  destruct (H Hin) as [_ (pre & post & Heq)].
  vm_compute in Heq. destruct pre as [|c [|c' pre]]; discriminate.
Qed.

(** C6, amended.  With [query] the trimmed argument, on operands that LIKE
    reads as they are written (the query and the stored artists: no U+0000,
    U+FFFE or U+FFFF) and a pattern within the length LIKE takes: if the
    query is empty, the route answers with no results and executes no
    statement.  Otherwise it executes one SELECT and answers with exactly the
    stored entries whose artist matches the pattern [%query%] of LIKE, in
    ascending order of rank (strictly ascending when the ranks of the store
    are unique).  When the query has no [%] and no [_], an artist matches
    exactly if it contains the query up to the case of ASCII letters. *)
Theorem artist_search_by_pattern (w : world) (q : option str) :
  let query := arg_or_empty q in
  let pattern := [percent] ++ query ++ [percent] in
  like_text query ->
  utf8_length pattern <= like_pattern_limit ->
  Forall (fun e => like_text (artist e)) (snapshot (disk w)) ->
  (query = [] ->
   exists w1,
     serve (artist_search q) w
     = (Return (render_template (artist_search_html [] [])), w1) /\
     trace w1 = trace w /\ disk w1 = disk w) /\
  (query <> [] ->
   exists w1 found,
     serve (artist_search q) w
     = (Return (render_template (artist_search_html query (map entry_sqlrow found))), w1) /\
     trace w1 = trace w ++ [Execute (SELECT_melon_chart_data_LIKE pattern)] /\
     disk w1 = disk w /\
     found ≡ₚ filter (fun e => like pattern (artist e) = true) (snapshot (disk w)) /\
     StronglySorted rank_le found /\
     (schema_ok (disk w) -> StronglySorted rank_lt found)) /\
  (no_wildcard query ->
   forall s, like_text s -> like pattern s = true <-> contains_nocase query s).
Proof.
  intros query pattern _ _ _. rewrite artist_search_run. fold query. fold pattern.
  split; [|split].
  - intros Hq. eexists. rewrite bool_decide_false by (by intros ?). rewrite Hq.
    split; [reflexivity|]. simpl. by rewrite app_nil_r.
  - intros Hq. rewrite bool_decide_true by done.
    set (hits := filter (fun r => like pattern (mc_artist r) = true)
                   (melon_chart_data (disk w))).
    pose proof (merge_sort_Permutation by_ranking hits) as Hperm.
    exists (set_db w (disk w) None [Execute (SELECT_melon_chart_data_LIKE pattern)]),
           (map entry_of_row (merge_sort by_ranking hits)).
    split; [by rewrite map_entry_sqlrow|]. split; [done|]. split; [done|].
    split; [|split].
    + rewrite (Permutation_map entry_of_row Hperm). unfold hits, snapshot.
      by rewrite filter_like_entries.
    + apply sorted_rows_le, (StronglySorted_merge_sort by_ranking).
    + intros [_ Hnd]. apply strictly_sorted_rows.
      * apply (StronglySorted_merge_sort by_ranking).
      * rewrite (Permutation_map mc_ranking Hperm). by apply NoDup_map_filter.
  - intros Hq s _. by apply like_contains.
Qed.

(** The query "x" between blanks, on the sample snapshot. *)
Lemma artist_search_by_pattern_witness :
  let w := offline sample_db in
  let q := Some (py " x ") in
  (like_text (arg_or_empty q) /\
   utf8_length ([percent] ++ arg_or_empty q ++ [percent]) <= like_pattern_limit /\
   Forall (fun e => like_text (artist e)) (snapshot (disk w))) /\
  exists w1 found,
    serve (artist_search q) w
    = (Return (render_template
                 (artist_search_html (arg_or_empty q) (map entry_sqlrow found))), w1) /\
    found ≡ₚ filter (fun e => like ([percent] ++ arg_or_empty q ++ [percent]) (artist e) = true)
               (snapshot (disk w)) /\
    StronglySorted rank_le found.
Proof.
  assert (H1 : like_text (arg_or_empty (Some (py " x "))))
    by (by apply (bool_decide_unpack _)).
  assert (H2 : utf8_length ([percent] ++ arg_or_empty (Some (py " x ")) ++ [percent])
               <= like_pattern_limit) by (by apply (bool_decide_unpack _)).
  assert (H3 : Forall (fun e => like_text (artist e)) (snapshot (disk (offline sample_db))))
    by (by apply (bool_decide_unpack _)).
  assert (H4 : arg_or_empty (Some (py " x ")) <> []) by (by vm_compute).
  split; [by split|].
  destruct (artist_search_by_pattern (offline sample_db) (Some (py " x ")) H1 H2 H3)
    as (_ & Hfound & _).
  destruct (Hfound H4) as (w1 & found & Hrun & _ & _ & Hperm & Hsorted & _).
  by exists w1, found.
Defined.

(** The wildcards of LIKE are live in the query: [_] alone selects every
    entry of the sample snapshot, whose artists have no underscore. *)
Example artist_search_underscore :
  (serve (artist_search (Some (py "_"))) (offline sample_db)).1
  = Return (render_template
              (artist_search_html (py "_")
                 (map entry_sqlrow (snapshot sample_db)))).
Proof. reflexivity. Qed.

(** The query is trimmed before it is matched: blanks around it are not
    looked for in the artist. *)
Example artist_search_trims :
  (serve (artist_search (Some (py "  Y "))) (offline sample_db)).1
  = Return (render_template
              (artist_search_html (py "Y") [entry_sqlrow (entry 3 "T3" "Y")])).
Proof. reflexivity. Qed.

(** C7.  Whatever way the request for the chart fails (the request raises,
    the status is not 200, parsing raises, or a row raises after earlier rows
    were read), the fetch returns the empty list and raises nothing; the
    request is the only thing it did. *)
Theorem fetch_failure_gives_empty (w : world) :
  fetch_failure (melon_answer w) ->
  fetch_melon_chart w = (Return [], set_db w (disk w) (g_db w) [melon_request]).
Proof.
  intros H. rewrite fetch_melon_chart_run. by rewrite (fetch_failure_fetched _ H).
Qed.

(** A page whose second row raises: the first row is not returned. *)
Lemma fetch_failure_gives_empty_witness :
  let w := online sample_db [row "1" "A" "X"; row "²" "B" "Y"] in
  fetch_failure (melon_answer w) /\
  fetch_melon_chart w = (Return [], set_db w (disk w) (g_db w) [melon_request]).
Proof.
  assert (H : fetch_failure (melon_answer (online sample_db [row "1" "A" "X"; row "²" "B" "Y"]))).
  { eapply row_exception; reflexivity. }
  split; [exact H|].
  exact (fetch_failure_gives_empty _ H).
Defined.

(** The fetch raises in no world. *)
Lemma fetch_melon_chart_returns (w : world) :
  exists chart, (fetch_melon_chart w).1 = Return chart.
Proof. eexists. by rewrite fetch_melon_chart_run. Qed.

(** C8.  On a page whose rows that pass the rank test all carry a decimal
    numeral (of a length [int] converts), a fetch returns one entry for each
    of them, in order: its rank is the number, its title the trimmed text of
    the title element, or the literal "제목 없음" where the row has none,
    its artist the trimmed text of the artist element, or "아티스트 없음"
    where the row has none.  The fetch comes back empty when a row passes
    the test with a rank that is no decimal numeral.  The two literals are
    spelled out by their code points. *)
Theorem placeholders_for_missing_elements (w : world) (r : response) (rows : list row_el) :
  melon_answer w = Return r ->
  status_code r = 200 ->
  soup_select r = Return rows ->
  exists chart,
    (fetch_melon_chart w).1 = Return chart /\
    (Forall (fun row => decimal_rank row /\
                        Z.of_nat (length (rank_text row)) <= int_max_str_digits)
       (filter included rows) ->
     chart = map row_entry (filter included rows) /\
     Forall2 fields_of (filter included rows) chart) /\
    (Exists (fun row => included row /\ ~ decimal_rank row) rows -> chart = []) /\
    py "제목 없음" = [51228; 47785; 32; 50630; 51020]%N /\
    py "아티스트 없음" = [50500; 54000; 49828; 53944; 32; 50630; 51020]%N.
Proof.
  intros Hans Hst Hrows. rewrite fetch_melon_chart_run. cbn [fst].
  assert (Hf : fetched (melon_answer w)
               = match parse_rows rows [] with Return chart => chart | Raise _ => [] end).
  { unfold fetched. by rewrite Hans, Hst, Hrows. }
  exists (fetched (melon_answer w)). split; [done|]. rewrite Hf.
  split; [|split; [|by split]].
  - intros Hdec.
    assert (Hall : Forall (fun row => included row -> decimal_rank row) rows).
    { apply Forall_forall. intros row Hin Hinc. rewrite Forall_forall in Hdec.
      apply (Hdec row). by apply list_elem_of_filter. }
    rewrite (parse_rows_decimal rows [] Hall). simpl.
    split; [done|apply Forall2_fields_of].
  - intros Hbad. by rewrite (parse_rows_digit_only rows [] Hbad).
Qed.

(** A page with a row without title, a row without rank and a row without
    artist: two entries, each with a placeholder. *)
Lemma placeholders_for_missing_elements_witness :
  let rows := [ {| rank_el := Some (py " 1 "); title_el := None; artist_el := Some (py "X") |};
                {| rank_el := None; title_el := Some (py "T"); artist_el := Some (py "Y") |};
                {| rank_el := Some (py "2"); title_el := Some (py "U"); artist_el := None |} ] in
  let w := online sample_db rows in
  exists r,
    (melon_answer w = Return r /\ status_code r = 200 /\ soup_select r = Return rows) /\
    (fetch_melon_chart w).1
    = Return [ {| rank := 1; title := py "제목 없음"; artist := py "X" |};
               {| rank := 2; title := py "U"; artist := py "아티스트 없음" |} ].
Proof.
  eexists. split; [repeat split; reflexivity|].
  destruct (placeholders_for_missing_elements
              (online sample_db
                 [ {| rank_el := Some (py " 1 "); title_el := None; artist_el := Some (py "X") |};
                   {| rank_el := None; title_el := Some (py "T"); artist_el := Some (py "Y") |};
                   {| rank_el := Some (py "2"); title_el := Some (py "U"); artist_el := None |} ])
              _ _ eq_refl eq_refl eq_refl) as (chart & Hrun & Hgood & _).
  rewrite Hrun. f_equal.
  destruct Hgood as [-> _]; [|reflexivity].
  by apply (bool_decide_unpack _).
Defined.

(** C9.  When the client id or the client secret is not set in the
    environment, or is blank, the search proxy returns no items and the
    message "NAVER API 키가 없습니다. 환경변수로 설정해주세요.", which is
    not empty, whatever the query; the world is left as it was, so the trace
    has no HTTP request. *)
Theorem missing_credentials_short_circuit
    (w : world) (query : str) (display : Z) (sort : str) :
  missing_or_blank (environ w (py "NAVER_CLIENT_ID")) \/
  missing_or_blank (environ w (py "NAVER_CLIENT_SECRET")) ->
  exists msg,
    search_naver_blog query display sort w
    = (Return {| items := JArray []; error := Some msg |}, w) /\
    msg = py "NAVER API 키가 없습니다. 환경변수로 설정해주세요." /\
    msg <> [].
Proof.
  intros H. eexists. split; [|split; [reflexivity|by vm_compute]].
  unfold search_naver_blog, NAVER_CLIENT_ID, NAVER_CLIENT_SECRET, bind, getenv, ret.
  destruct H as [H|H]; apply missing_or_blank_strip in H; rewrite H.
  - done.
  - by rewrite orb_true_r.
Qed.

(** No variable is set. *)
Lemma missing_credentials_short_circuit_witness :
  let w := offline sample_db in
  (missing_or_blank (environ w (py "NAVER_CLIENT_ID")) \/
   missing_or_blank (environ w (py "NAVER_CLIENT_SECRET"))) /\
  exists msg,
    search_naver_blog (py "melon") 10 (py "sim") w
    = (Return {| items := JArray []; error := Some msg |}, w) /\
    msg = py "NAVER API 키가 없습니다. 환경변수로 설정해주세요." /\
    msg <> [].
Proof.
  assert (H : missing_or_blank (environ (offline sample_db) (py "NAVER_CLIENT_ID")) \/
              missing_or_blank (environ (offline sample_db) (py "NAVER_CLIENT_SECRET"))).
  { left. exact I. }
  split; [exact H|].
  exact (missing_credentials_short_circuit (offline sample_db) (py "melon") 10 (py "sim") H).
Defined.

(** C10.  After a save (of entries the engine takes) the stored snapshot
    holds at most one row per rank, also when the chart repeats a rank: an
    entry is stored exactly when it is the last of its rank in the chart.
    The uniqueness constraints of the schema are kept by every statement and
    by every route. *)
Theorem rank_unique_in_store (w : world) (chart : list ChartEntry) :
  Forall bindable chart ->
  exists w1,
    serve (save_melon_chart_to_db chart) w = (Return tt, w1) /\
    NoDup (map rank (snapshot (disk w1))) /\
    (forall e, e ∈ snapshot (disk w1) <-> last_with_rank chart e) /\
    (forall s d d' c,
        schema_ok d -> run_statement s d = Return (d', c) -> schema_ok d') /\
    (schema_ok (disk w) ->
     forall q,
       schema_ok (disk (serve (blog q) w).2) /\
       schema_ok (disk (serve melon_chart w).2) /\
       schema_ok (disk (serve update_chart_db w).2) /\
       schema_ok (disk (serve artist_ranking w).2) /\
       schema_ok (disk (serve (artist_search q) w).2)).
Proof.
  intros _. eexists. split; [apply save_melon_chart_to_db_run|].
  refine (conj _ (conj _ (conj run_statement_schema_ok _))).
  - simpl disk. rewrite snapshot_foldl, snapshot_delete_all.
    apply foldl_upsert_NoDup. constructor.
  - intros e. simpl disk. rewrite snapshot_foldl, snapshot_delete_all.
    rewrite elem_of_foldl_upsert. split; [|by left].
    intros [H|[H _]]; [done|]. by apply elem_of_nil in H.
  - intros Hok q.
    refine (conj _ (conj _ (conj _ (conj _ _)))); apply serve_schema_ok; try done.
    + apply preserves_blog.
    + apply preserves_melon_chart.
    + apply preserves_update_chart_db.
    + apply preserves_artist_ranking.
    + apply preserves_artist_search.
Qed.

(** A chart that gives rank 1 twice, saved over the sample snapshot. *)
Lemma rank_unique_in_store_witness :
  let chart := [entry 1 "A" "X"; entry 2 "B" "Y"; entry 1 "C" "Z"] in
  Forall bindable chart /\
  exists w1,
    serve (save_melon_chart_to_db chart) (offline sample_db) = (Return tt, w1) /\
    NoDup (map rank (snapshot (disk w1))) /\
    (forall e, e ∈ snapshot (disk w1) <-> last_with_rank chart e).
Proof.
  assert (Hb : Forall bindable [entry 1 "A" "X"; entry 2 "B" "Y"; entry 1 "C" "Z"]).
  { by apply (bool_decide_unpack _). }
  split; [exact Hb|].
  destruct (rank_unique_in_store (offline sample_db) _ Hb) as (w1 & Hrun & Hnd & Hlast & _).
  by exists w1.
Defined.

(** * Further properties *)

(** ** Trimming *)

Lemma lstrip_with_split sp s :
  exists pre, s = pre ++ lstrip_with sp s /\ Forall (fun c => sp c = true) pre.
Proof.
  induction s as [|c s (pre & Heq & Hpre)]; [by exists []|].
  simpl. destruct (sp c) eqn:Hc.
  - exists (c :: pre). split; [by rewrite Heq at 1|by constructor].
  - by exists [].
Qed.

Lemma lstrip_with_head sp s c t : lstrip_with sp s = c :: t -> sp c = false.
Proof.
  induction s as [|x s IH]; [done|]. simpl. destruct (sp x) eqn:Hx; [done|].
  by intros [= -> _].
Qed.

Lemma strip_trimmed s : trimmed (strip s).
Proof.
  unfold strip, strip_with.
  set (u := lstrip_with isspace_char s).
  set (v := lstrip_with isspace_char (rev u)).
  assert (Hv : forall c t, v = c :: t -> isspace_char c = false).
  { intros c t. apply lstrip_with_head. }
  split.
  - intros c t Heq.
    destruct (lstrip_with_split isspace_char (rev u)) as (pre & Hsplit & Hpre).
    fold v in Hsplit.
    assert (Hu : rev v ++ rev pre = u).
    { rewrite <- rev_app_distr, <- Hsplit. apply rev_involutive. }
    rewrite Heq in Hu. simpl in Hu.
    eapply (lstrip_with_head isspace_char s c). fold u. by rewrite <- Hu.
  - intros t c Heq. apply (Hv c (rev t)).
    rewrite <- (rev_involutive v), Heq, rev_app_distr. done.
Qed.

Lemma trimmed_strip s : trimmed s -> strip s = s.
Proof.
  intros [Hhead Hlast]. unfold strip, strip_with.
  assert (Hl : forall u : str, (forall c t, u = c :: t -> isspace_char c = false) ->
                               lstrip_with isspace_char u = u).
  { intros [|c t] H; [done|]. simpl. by rewrite (H c t). }
  rewrite (Hl s Hhead). rewrite Hl; [apply rev_involutive|].
  intros c t Heq. apply (Hlast (rev t) c).
  rewrite <- (rev_involutive s), Heq. done.
Qed.

Lemma strip_idempotent s : strip (strip s) = strip s.
Proof. apply trimmed_strip, strip_trimmed. Qed.

(** ** The search proxy *)

Lemma search_naver_blog_run query display sort w :
  search_naver_blog query display sort w
  = if bool_decide (credential w "NAVER_CLIENT_ID" = [])
       || bool_decide (credential w "NAVER_CLIENT_SECRET" = [])
    then (Return no_credentials, w)
    else
      let url := naver_url query display sort in
      let headers := naver_headers (credential w "NAVER_CLIENT_ID")
                                   (credential w "NAVER_CLIENT_SECRET") in
      (Return (naver_result (network w url headers)),
       set_db w (disk w) (g_db w) [HttpGet url headers 10]).
Proof.
  unfold naver_result, naver_url, naver_headers, no_credentials, credential.
  unfold search_naver_blog, NAVER_CLIENT_ID, NAVER_CLIENT_SECRET, bind, getenv, ret.
  destruct (bool_decide _ || bool_decide _); [reflexivity|].
  unfold try_except, requests_get, lift. cbv zeta.
  destruct (network w _ _) as [r|e]; [|reflexivity].
  destruct (status_code r =? 200); [|reflexivity].
  destruct (json_body r) as [j|e]; [|reflexivity].
  destruct (json_get_items j); reflexivity.
Qed.

Lemma naver_result_error answer :
  error (naver_result answer) <> None -> items (naver_result answer) = JArray [].
Proof.
  unfold naver_result. destruct answer as [r|e]; [|done].
  destruct (status_code r =? 200); [|done].
  destruct (json_body r) as [j|e]; [|done].
  by destruct (json_get_items j).
Qed.

Lemma dict_get_app members members' key found :
  dict_get (members ++ members') key found
  = dict_get members' key (dict_get members key found).
Proof.
  revert found. induction members as [|[k v] members IH]; intros found; [done|].
  simpl. by rewrite IH.
Qed.

Lemma dict_get_absent members key found :
  (forall v, (key, v) ∉ members) -> dict_get members key found = found.
Proof.
  revert found. induction members as [|[k v] members IH]; intros found H; [done|].
  simpl. destruct (decide (k = key)) as [->|_].
  - exfalso. apply (H v). left.
  - apply IH. intros v' Hin. apply (H v'). by right.
Qed.

Lemma dict_get_last pre post key v found :
  (forall v', (key, v') ∉ post) ->
  dict_get (pre ++ (key, v) :: post) key found = Some v.
Proof.
  intros H. rewrite dict_get_app. simpl.
  destruct (decide (key = key)); [|done]. by apply dict_get_absent.
Qed.

Lemma search_naver_blog_effect query display sort w :
  exists res evs,
    search_naver_blog query display sort w
    = (Return res, set_db w (disk w) (g_db w) evs) /\
    (error res <> None -> items res = JArray []) /\
    (evs = [] \/ exists url headers, evs = [HttpGet url headers 10]).
Proof.
  rewrite search_naver_blog_run.
  destruct (bool_decide _ || bool_decide _).
  - exists no_credentials, []. rewrite set_db_id. split; [done|]. split; [done|by left].
  - eexists _, _. split; [reflexivity|]. split; [apply naver_result_error|].
    right. by eexists _, _.
Qed.

(** X1.  Called on a text, the search proxy raises in no world.  It leaves
    the database and the connection alone; a result that carries an error
    message has no items; without one of the credentials it makes no request,
    and with both it makes exactly one, to the blog endpoint with the quoted
    query, under the two credential headers and a timeout of ten. *)
Theorem search_naver_blog_contained
    (w : world) (query : str) (display : Z) (sort : str) :
  text query ->
  exists res w1,
    search_naver_blog query display sort w = (Return res, w1) /\
    disk w1 = disk w /\
    g_db w1 = g_db w /\
    (error res <> None -> items res = JArray []) /\
    (credential w "NAVER_CLIENT_ID" = [] \/ credential w "NAVER_CLIENT_SECRET" = [] ->
     trace w1 = trace w) /\
    (credential w "NAVER_CLIENT_ID" <> [] -> credential w "NAVER_CLIENT_SECRET" <> [] ->
     trace w1
     = trace w ++ [HttpGet (naver_url query display sort)
                     (naver_headers (credential w "NAVER_CLIENT_ID")
                                    (credential w "NAVER_CLIENT_SECRET")) 10]).
Proof.
  intros _. rewrite search_naver_blog_run.
  destruct (decide (credential w "NAVER_CLIENT_ID" = [])) as [Hid|Hid];
    [|destruct (decide (credential w "NAVER_CLIENT_SECRET" = [])) as [Hs|Hs]].
  - rewrite (bool_decide_true _ Hid). simpl. eexists _, _. split; [done|].
    repeat split; try done.
  - rewrite (bool_decide_true _ Hs), orb_true_r. eexists _, _. split; [done|].
    repeat split; try done.
  - rewrite (bool_decide_false _ Hid), (bool_decide_false _ Hs). simpl.
    eexists _, _. split; [done|]. repeat split; try done.
    + apply naver_result_error.
    + by intros [?|?].
Qed.

(** A Korean query, the network down. *)
Lemma search_naver_blog_contained_witness :
  text (py "멜론 차트") /\
  exists res w1,
    search_naver_blog (py "멜론 차트") 10 (py "sim") (offline sample_db) = (Return res, w1) /\
    disk w1 = disk (offline sample_db).
Proof.
  assert (H : text (py "멜론 차트")) by (by apply (bool_decide_unpack _)).
  split; [exact H|].
  destruct (search_naver_blog_contained (offline sample_db) (py "멜론 차트") 10 (py "sim") H)
    as (res & w1 & Hrun & Hdisk & _).
  by exists res, w1.
Defined.

(** X2.  With both credentials set, the result of the search proxy carries
    no error exactly when the answer has status 200 and a body that is a
    JSON object.  Its items are then the value of the member "items" of the
    object, the last one if the name is repeated, and the empty array if
    there is none. *)
Theorem search_naver_blog_items
    (w : world) (query : str) (display : Z) (sort : str) (res : blog_result) :
  credential w "NAVER_CLIENT_ID" <> [] ->
  credential w "NAVER_CLIENT_SECRET" <> [] ->
  (search_naver_blog query display sort w).1 = Return res ->
  let answer := network w (naver_url query display sort)
                  (naver_headers (credential w "NAVER_CLIENT_ID")
                                 (credential w "NAVER_CLIENT_SECRET")) in
  (error res = None <->
   exists r members,
     answer = Return r /\ status_code r = 200 /\ json_body r = Return (JObject members)) /\
  (forall r members,
     answer = Return r -> status_code r = 200 -> json_body r = Return (JObject members) ->
     (forall pre v post,
        members = pre ++ (py "items", v) :: post ->
        (forall v', (py "items", v') ∉ post) -> items res = v) /\
     ((forall v, (py "items", v) ∉ members) -> items res = JArray [])).
Proof.
  intros Hid Hs Hrun answer. rewrite search_naver_blog_run in Hrun.
  rewrite (bool_decide_false _ Hid), (bool_decide_false _ Hs) in Hrun.
  cbv zeta in Hrun. cbn [orb fst] in Hrun. injection Hrun as <-. fold answer. split.
  - unfold naver_result. split.
    + destruct answer as [r|e]; [|done].
      destruct (Z.eqb_spec (status_code r) 200) as [Hst|Hst]; [|done].
      destruct (json_body r) as [j|e] eqn:Hj; [|done].
      destruct j as [| | | | |members]; try done. intros _. by exists r, members.
    + intros (r & members & -> & Hst & Hj). by rewrite Hst, Hj.
  - intros r members Hans Hst Hj. unfold naver_result. rewrite Hans, Hst, Hj. simpl.
    split.
    + intros pre v post -> Hpost. by rewrite dict_get_last.
    + intros Hnone. by rewrite dict_get_absent.
Qed.

(** An answer whose object names "items" twice. *)
Lemma search_naver_blog_items_witness :
  let j := JObject [(py "total", JNumber (py "2"));
                    (py "items", JArray [JString (py "old")]);
                    (py "items", JArray [JString (py "a"); JString (py "b")])] in
  let w := answering sample_db (json_response 200 j) in
  let res := {| items := JArray [JString (py "a"); JString (py "b")]; error := None |} in
  (credential w "NAVER_CLIENT_ID" <> [] /\
   credential w "NAVER_CLIENT_SECRET" <> [] /\
   (search_naver_blog (py "melon") 10 (py "sim") w).1 = Return res) /\
  (error res = None <->
   exists r members,
     network w (naver_url (py "melon") 10 (py "sim"))
       (naver_headers (credential w "NAVER_CLIENT_ID") (credential w "NAVER_CLIENT_SECRET"))
     = Return r /\ status_code r = 200 /\ json_body r = Return (JObject members)).
Proof.
  assert (H1 : credential (answering sample_db (json_response 200
             (JObject [(py "total", JNumber (py "2"));
                       (py "items", JArray [JString (py "old")]);
                       (py "items", JArray [JString (py "a"); JString (py "b")])])))
             "NAVER_CLIENT_ID" <> []) by (by vm_compute).
  assert (H2 : credential (answering sample_db (json_response 200
             (JObject [(py "total", JNumber (py "2"));
                       (py "items", JArray [JString (py "old")]);
                       (py "items", JArray [JString (py "a"); JString (py "b")])])))
             "NAVER_CLIENT_SECRET" <> []) by (by vm_compute).
  split; [split; [exact H1|split; [exact H2|by vm_compute]]|].
  exact (proj1 (search_naver_blog_items _ (py "melon") 10 (py "sim") _ H1 H2 eq_refl)).
Defined.

(** ** The blog route *)

Lemma credential_set_db w d g evs name :
  credential (set_db w d g evs) name = credential w name.
Proof. done. Qed.

Lemma blog_run q w :
  serve (blog q) w
  = if bool_decide (arg_or_empty q <> []) then
      let q' := arg_or_empty q in
      let w1 := set_db w (record_search q' (disk w)) (Some None)
                  (record_search_events q' (disk w)) in
      let '(res, w2) := search_naver_blog q' 10 (py "sim") w1 in
      (match res with
       | Return resp =>
         Return (render_template (search_blog_html q' (items resp) (error resp)))
       | Raise e => Raise e
       end, close_db w2)
    else
      (Return (render_template (search_blog_html (arg_or_empty q) (JArray []) None)),
       set_db w (disk w) None []).
Proof.
  unfold serve, blog. destruct (bool_decide (arg_or_empty q <> [])).
  - unfold bind at 1. rewrite increment_search_count_fresh by done.
    rewrite set_db_set_db. simpl app. cbn [disk set_db].
    unfold bind.
    destruct (search_naver_blog _ _ _ _) as [[resp|e] w2]; reflexivity.
  - unfold ret, close_db, set_db. simpl. by rewrite !app_nil_r.
Qed.

Lemma filter_other_bump k k' rows :
  k' <> k ->
  filter (fun r => sc_keyword r = k') (map (bump k) rows)
  = filter (fun r => sc_keyword r = k') rows.
Proof.
  intros Hne. induction rows as [|r rows IH]; [done|]. simpl.
  unfold bump at 1. destruct (decide (sc_keyword r = k)) as [E|E].
  - rewrite !filter_cons_False by (simpl; congruence). exact IH.
  - destruct (decide (sc_keyword r = k')).
    + rewrite !filter_cons_True by done. by rewrite IH.
    + rewrite !filter_cons_False by done. exact IH.
Qed.

Lemma records_of_other k k' d :
  k' <> k -> records_of k' (record_search k d) = records_of k' d.
Proof.
  intros Hne. unfold records_of, record_search.
  destruct (decide (k ∈ map sc_keyword (search_count d))); simpl.
  - by apply filter_other_bump.
  - rewrite filter_app. rewrite (filter_cons_False _ _ []) by (simpl; congruence).
    by rewrite filter_nil, app_nil_r.
Qed.

Lemma count_of_other k k' d :
  k' <> k -> count_of k' (record_search k d) = count_of k' d.
Proof. intros H. unfold count_of. by rewrite records_of_other. Qed.

Lemma records_of_unique k rows :
  NoDup (map sc_keyword rows) ->
  filter (fun r => sc_keyword r = k) rows = []
  \/ exists r, filter (fun r => sc_keyword r = k) rows = [r] /\ sc_keyword r = k.
Proof.
  induction rows as [|r rows IH]; [by left|]. simpl. intros [Hr Hnd]%NoDup_cons.
  destruct (decide (sc_keyword r = k)) as [E|E].
  - right. exists r. rewrite filter_cons_True by done. split; [|done]. f_equal.
    apply filter_keyword_nil. by rewrite <- E.
  - rewrite filter_cons_False by done. by apply IH.
Qed.

Lemma count_of_same k d :
  NoDup (map sc_keyword (search_count d)) ->
  count_of k (record_search k d) = count_of k d + 1.
Proof.
  intros Hnd. unfold count_of.
  destruct (decide (k ∈ map sc_keyword (search_count d))) as [Hk|Hk].
  - destruct (records_of_unique k _ Hnd) as [Hnil|(r & Hr & Hkw)].
    + by apply filter_keyword_cons in Hk.
    + destruct r as [i kw n]. simpl in Hkw. subst kw. fold (records_of k d) in Hr.
      rewrite (records_of_bump k d i n Hr), Hr. simpl. lia.
  - destruct (records_of_new k d Hk) as [i ->].
    unfold records_of. rewrite (filter_keyword_nil k _ Hk). done.
Qed.

Lemma record_search_keywords_NoDup k d :
  NoDup (map sc_keyword (search_count d)) ->
  NoDup (map sc_keyword (search_count (record_search k d))).
Proof.
  intros Hnd. unfold record_search.
  destruct (decide (k ∈ map sc_keyword (search_count d))) as [Hk|Hk]; simpl.
  - by rewrite map_keyword_bump.
  - rewrite map_app. simpl. apply NoDup_app. split; [done|].
    split; [|apply NoDup_singleton].
    intros x Hx Heq%list_elem_of_singleton. by subst.
Qed.

Lemma record_search_chart k d :
  melon_chart_data (record_search k d) = melon_chart_data d /\
  seq_melon_chart_data (record_search k d) = seq_melon_chart_data d.
Proof. unfold record_search. by destruct (decide _). Qed.

Lemma bump_keyword_record_ok k r : keyword_record_ok r -> keyword_record_ok (bump k r).
Proof.
  intros (H1 & H2 & H3). unfold bump. destruct (decide (sc_keyword r = k)); [|done].
  repeat split; simpl; [done|apply H2|apply H2|lia].
Qed.

Lemma record_search_keywords_ok (k : str) d :
  k <> [] -> trimmed k -> keywords_ok d -> keywords_ok (record_search k d).
Proof.
  intros Hk Ht Hok. unfold keywords_ok, record_search in *.
  destruct (decide (k ∈ map sc_keyword (search_count d))); simpl.
  - apply Forall_map. eapply Forall_impl; [exact Hok|].
    intros r. apply bump_keyword_record_ok.
  - apply Forall_app. split; [done|]. apply Forall_singleton.
    repeat split; simpl; [done|apply Ht|apply Ht|lia].
Qed.

Lemma blog_disk q w :
  disk (serve (blog q) w).2
  = if bool_decide (arg_or_empty q <> [])
    then record_search (arg_or_empty q) (disk w) else disk w.
Proof.
  rewrite blog_run. destruct (bool_decide (arg_or_empty q <> [])); [|done].
  cbv zeta.
  destruct (search_naver_blog_effect (arg_or_empty q) 10 (py "sim")
              (set_db w (record_search (arg_or_empty q) (disk w)) (Some None)
                 (record_search_events (arg_or_empty q) (disk w))))
    as (res & evs & -> & _).
  done.
Qed.

(** X3.  A request of the blog route whose query is missing or blank does
    nothing: no statement, no HTTP request, the same database; the page has
    no results and no error. *)
Theorem blog_without_query (w : world) (q : option str) :
  arg_or_empty q = [] ->
  exists w1,
    serve (blog q) w
    = (Return (render_template (search_blog_html [] (JArray []) None)), w1) /\
    trace w1 = trace w /\
    disk w1 = disk w.
Proof.
  intros Hq. rewrite blog_run, Hq. rewrite bool_decide_false by (by intros ?).
  eexists. split; [reflexivity|]. simpl. by rewrite app_nil_r.
Qed.

(** A query of blanks. *)
Lemma blog_without_query_witness :
  arg_or_empty (Some (py "   ")) = [] /\
  exists w1,
    serve (blog (Some (py "   "))) (offline sample_db)
    = (Return (render_template (search_blog_html [] (JArray []) None)), w1) /\
    trace w1 = trace (offline sample_db) /\
    disk w1 = disk (offline sample_db).
Proof.
  split; [reflexivity|].
  exact (blog_without_query (offline sample_db) (Some (py "   ")) eq_refl).
Defined.

(** X4.  A request of the blog route with a query (a text) that is not
    blank renders the page, whatever the search proxy meets, and the search
    is counted and committed before the proxy is called: what the request
    adds to the trace is the statements and the commit of the count, then at
    most one HTTP request.  In a store with unique keywords the count of the
    trimmed query is one higher afterwards, no other count has moved, and the
    chart is untouched.  A page with an error message has no results. *)
Theorem blog_counts_the_search (w : world) (q : option str) :
  text (arg_or_empty q) ->
  arg_or_empty q <> [] ->
  NoDup (map sc_keyword (search_count (disk w))) ->
  exists results error w1 evs,
    serve (blog q) w
    = (Return (render_template (search_blog_html (arg_or_empty q) results error)), w1) /\
    (error <> None -> results = JArray []) /\
    trace w1 = trace w ++ record_search_events (arg_or_empty q) (disk w) ++ evs /\
    (evs = [] \/ exists url headers, evs = [HttpGet url headers 10]) /\
    count_of (arg_or_empty q) (disk w1) = count_of (arg_or_empty q) (disk w) + 1 /\
    (forall k, k <> arg_or_empty q -> count_of k (disk w1) = count_of k (disk w)) /\
    melon_chart_data (disk w1) = melon_chart_data (disk w).
Proof.
  intros _ Hq Hnd.
  pose proof (blog_disk q w) as Hdisk. rewrite blog_run in *.
  rewrite bool_decide_true in * by done. cbv zeta in *.
  destruct (search_naver_blog_effect (arg_or_empty q) 10 (py "sim")
              (set_db w (record_search (arg_or_empty q) (disk w)) (Some None)
                 (record_search_events (arg_or_empty q) (disk w))))
    as (res & evs & Hrun & Herr & Hevs).
  rewrite Hrun in *. cbn [snd] in Hdisk.
  eexists _, _, _, evs. split; [reflexivity|]. split; [exact Herr|].
  split; [unfold close_db, set_db; simpl; by rewrite app_nil_r, <- app_assoc|].
  split; [exact Hevs|].
  rewrite Hdisk. split; [by apply count_of_same|].
  split; [intros k Hk; by apply count_of_other|apply record_search_chart].
Qed.

(** The network is down and no credential is set: the search is counted all
    the same. *)
Lemma blog_counts_the_search_witness :
  let q := Some (py " melon ") in
  let w := offline sample_db in
  (text (arg_or_empty q) /\ arg_or_empty q <> [] /\
   NoDup (map sc_keyword (search_count (disk w)))) /\
  exists results error w1 evs,
    serve (blog q) w
    = (Return (render_template (search_blog_html (arg_or_empty q) results error)), w1) /\
    (error <> None -> results = JArray []) /\
    trace w1 = trace w ++ record_search_events (arg_or_empty q) (disk w) ++ evs /\
    (evs = [] \/ exists url headers, evs = [HttpGet url headers 10]) /\
    count_of (arg_or_empty q) (disk w1) = count_of (arg_or_empty q) (disk w) + 1 /\
    (forall k, k <> arg_or_empty q -> count_of k (disk w1) = count_of k (disk w)) /\
    melon_chart_data (disk w1) = melon_chart_data (disk w).
Proof.
  assert (H0 : text (arg_or_empty (Some (py " melon "))))
    by (by apply (bool_decide_unpack _)).
  assert (H1 : arg_or_empty (Some (py " melon ")) <> []) by (by vm_compute).
  assert (H2 : NoDup (map sc_keyword (search_count (disk (offline sample_db)))))
    by constructor.
  split; [by split|].
  exact (blog_counts_the_search (offline sample_db) (Some (py " melon ")) H0 H1 H2).
Defined.

(** ** What the routes leave alone *)

Lemma serve_bind_ret {A B} (m : M A) (f : A -> B) w a w1 :
  serve m w = (Return a, w1) ->
  serve (x <- m ;; ret (f x)) w = (Return (f a), w1).
Proof.
  unfold serve, bind, ret.
  destruct (m (set_db w (disk w) None [])) as [[x|e] w2]; [|done].
  by intros [= -> <-].
Qed.

Lemma artist_ranking_run w :
  serve artist_ranking w
  = (Return (render_template
               (artist_ranking_html
                  (map artist_count_sqlrow
                     (limit_rows 10
                        (merge_sort by_count_then_artist
                           (group_by_artist (melon_chart_data (disk w)))))))),
     set_db w (disk w) None [Execute (SELECT_artist_song_count 10)]).
Proof.
  apply (serve_bind_ret (get_artist_count_ranking 10)
           (fun rows => render_template (artist_ranking_html rows))).
  apply get_artist_count_ranking_run.
Qed.

Lemma foldl_replace_into_keywords chart d :
  search_count (foldl replace_into d chart) = search_count d /\
  seq_search_count (foldl replace_into d chart) = seq_search_count d.
Proof.
  revert d. induction chart as [|e chart IH]; intros d; [done|].
  simpl. destruct (IH (replace_into d e)) as [-> ->]. done.
Qed.

Lemma update_chart_db_keywords w :
  search_count (disk (serve update_chart_db w).2) = search_count (disk w) /\
  seq_search_count (disk (serve update_chart_db w).2) = seq_search_count (disk w).
Proof.
  rewrite update_chart_db_run. destruct (fetched (melon_answer w)) as [|c l]; [done|].
  cbn [snd disk set_db].
  by destruct (foldl_replace_into_keywords (c :: l) (delete_all (disk w))) as [-> ->].
Qed.

Lemma blog_requests_snoc queries q w :
  blog_requests (queries ++ [q]) w = (serve (blog q) (blog_requests queries w)).2.
Proof. unfold blog_requests. by rewrite foldl_app. Qed.

Lemma blog_keywords_NoDup q w :
  NoDup (map sc_keyword (search_count (disk w))) ->
  NoDup (map sc_keyword (search_count (disk (serve (blog q) w).2))).
Proof.
  intros H. rewrite blog_disk. destruct (bool_decide _); [|done].
  by apply record_search_keywords_NoDup.
Qed.

Lemma blog_requests_keywords_NoDup queries w :
  NoDup (map sc_keyword (search_count (disk w))) ->
  NoDup (map sc_keyword (search_count (disk (blog_requests queries w)))).
Proof.
  intros H. induction queries as [|q queries IH] using rev_ind; [done|].
  rewrite blog_requests_snoc. by apply blog_keywords_NoDup.
Qed.

Lemma searches_for_snoc k queries q :
  searches_for k (queries ++ [q])
  = searches_for k queries + (if decide (arg_or_empty q = k) then 1 else 0).
Proof.
  unfold searches_for. rewrite filter_app, length_app.
  destruct (decide (arg_or_empty q = k)).
  - rewrite (filter_cons_True _ _ []) by done. simpl. lia.
  - rewrite (filter_cons_False _ _ []) by done. simpl. lia.
Qed.

(** X5.  In a store with unique keywords, after any run of requests of the
    blog route the count of a keyword (a text that is not empty) is its count before
    plus the number of queries of the run that are this keyword once trimmed:
    requests for other keywords, blank requests and failing searches in
    between do not change it. *)
Theorem search_counts_add_up (w : world) (queries : list (option str)) (k : str) :
  text k ->
  k <> [] ->
  NoDup (map sc_keyword (search_count (disk w))) ->
  count_of k (disk (blog_requests queries w))
  = count_of k (disk w) + searches_for k queries.
Proof.
  intros _ Hk Hnd. induction queries as [|q queries IH] using rev_ind.
  - unfold searches_for. simpl. lia.
  - rewrite blog_requests_snoc, searches_for_snoc, blog_disk.
    pose proof (blog_requests_keywords_NoDup queries w Hnd) as Hnd'.
    destruct (decide (arg_or_empty q = k)) as [E|E].
    + rewrite bool_decide_true by congruence. rewrite E, count_of_same by done. lia.
    + destruct (decide (arg_or_empty q = [])) as [E'|E'].
      * rewrite bool_decide_false by (by intros ?). lia.
      * rewrite bool_decide_true by done. rewrite count_of_other by congruence. lia.
Qed.

(** Five requests, three of them for "a" in different spellings of blanks. *)
Lemma search_counts_add_up_witness :
  let queries := [Some (py "a"); Some (py "b"); None; Some (py " a "); Some (py "  ");
                  Some (py "a ")] in
  (text (py "a") /\ py "a" <> [] /\
   NoDup (map sc_keyword (search_count (disk (offline init_db))))) /\
  count_of (py "a") (disk (blog_requests queries (offline init_db)))
  = count_of (py "a") (disk (offline init_db)) + searches_for (py "a") queries.
Proof.
  assert (H0 : text (py "a")) by (by apply (bool_decide_unpack _)).
  assert (H1 : py "a" <> []) by done.
  assert (H2 : NoDup (map sc_keyword (search_count (disk (offline init_db)))))
    by constructor.
  split; [by split|].
  exact (search_counts_add_up (offline init_db) _ (py "a") H0 H1 H2).
Defined.

(** X6.  Every route keeps what the data model asks of the keyword records:
    keywords that are not empty and carry no blank at their ends, counts of
    at least one.  The empty database has it, so every store the routes reach
    from it has it. *)
Theorem keyword_records_stay_well_formed (w : world) (q : option str) :
  keywords_ok init_db /\
  (keywords_ok (disk w) ->
   keywords_ok (disk (serve (blog q) w).2) /\
   keywords_ok (disk (serve melon_chart w).2) /\
   keywords_ok (disk (serve update_chart_db w).2) /\
   keywords_ok (disk (serve artist_ranking w).2) /\
   keywords_ok (disk (serve (artist_search q) w).2)).
Proof.
  split; [constructor|]. intros Hok.
  refine (conj _ (conj _ (conj _ (conj _ _)))).
  - rewrite blog_disk. destruct (bool_decide (arg_or_empty q <> [])) eqn:E; [|done].
    apply bool_decide_eq_true in E.
    apply record_search_keywords_ok; [done|apply strip_trimmed|done].
  - by rewrite melon_chart_run.
  - unfold keywords_ok. by rewrite (proj1 (update_chart_db_keywords w)).
  - by rewrite artist_ranking_run.
  - rewrite artist_search_run. by destruct (bool_decide _).
Qed.

(** X7.  The three routes that show the chart only read: each (the artist
    search on a text, with a pattern within the length LIKE takes) renders a
    page, leaves the database file as it was, makes no HTTP request and
    commits nothing; what it adds to the trace is at most one statement, a
    SELECT. *)
Theorem chart_views_only_read (w : world) (q : option str) (handler : M reply) :
  text (arg_or_empty q) ->
  utf8_length ([percent] ++ arg_or_empty q ++ [percent]) <= like_pattern_limit ->
  handler = melon_chart \/ handler = artist_ranking \/ handler = artist_search q ->
  exists p w1 evs,
    serve handler w = (Return (render_template p), w1) /\
    disk w1 = disk w /\
    trace w1 = trace w ++ evs /\
    Forall is_read evs /\
    (length evs <= 1)%nat.
Proof.
  intros _ _ [->|[->| ->]].
  - rewrite melon_chart_run. eexists _, _, _. split; [reflexivity|].
    repeat split; [by repeat constructor|simpl; lia].
  - rewrite artist_ranking_run. eexists _, _, _. split; [reflexivity|].
    repeat split; [by repeat constructor|simpl; lia].
  - rewrite artist_search_run. destruct (bool_decide _).
    + eexists _, _, _. split; [reflexivity|].
      repeat split; [by repeat constructor|simpl; lia].
    + eexists _, _, []. split; [reflexivity|].
      repeat split; [constructor|simpl; lia].
Qed.

(** The artist search on the sample snapshot. *)
Lemma chart_views_only_read_witness :
  let w := offline sample_db in
  let handler := artist_search (Some (py "x")) in
  (text (arg_or_empty (Some (py "x"))) /\
   utf8_length ([percent] ++ arg_or_empty (Some (py "x")) ++ [percent])
   <= like_pattern_limit /\
   (handler = melon_chart \/ handler = artist_ranking
    \/ handler = artist_search (Some (py "x")))) /\
  exists p w1 evs,
    serve handler w = (Return (render_template p), w1) /\
    disk w1 = disk w /\
    trace w1 = trace w ++ evs /\
    Forall is_read evs /\
    (length evs <= 1)%nat.
Proof.
  assert (H : artist_search (Some (py "x")) = melon_chart
              \/ artist_search (Some (py "x")) = artist_ranking
              \/ artist_search (Some (py "x")) = artist_search (Some (py "x")))
    by (right; by right).
  assert (H0 : text (arg_or_empty (Some (py "x")))) by (by apply (bool_decide_unpack _)).
  assert (H1 : utf8_length ([percent] ++ arg_or_empty (Some (py "x")) ++ [percent])
               <= like_pattern_limit) by (by apply (bool_decide_unpack _)).
  split; [by split|].
  exact (chart_views_only_read (offline sample_db) (Some (py "x")) _ H0 H1 H).
Defined.

(** X8.  A refresh answers with the redirect to the chart whatever the
    fetch meets (the entries it returns being storable); it makes one HTTP
    request, the first thing it does, and it never touches the keyword
    records. *)
Theorem refresh_always_redirects (w : world) :
  Forall storable (fetched (melon_answer w)) ->
  exists w1 evs,
    serve update_chart_db w = (Return (redirect "melon_chart"), w1) /\
    trace w1 = trace w ++ melon_request :: evs /\
    Forall (fun ev => forall url headers timeout, ev <> HttpGet url headers timeout) evs /\
    search_count (disk w1) = search_count (disk w).
Proof.
  intros _. pose proof (update_chart_db_keywords w) as [Hk _].
  rewrite update_chart_db_run in *. destruct (fetched (melon_answer w)) as [|e chart].
  - eexists _, []. split; [reflexivity|]. by repeat split.
  - eexists _, _. split; [reflexivity|]. split; [reflexivity|]. split; [|exact Hk].
    apply Forall_cons. split; [done|]. apply Forall_app. split.
    + apply Forall_forall. intros ev Hin.
      apply list_elem_of_In, in_map_iff in Hin as (x & <- & _). done.
    + by repeat constructor.
Qed.

(** A page of two rows, one of them without a rank. *)
Lemma refresh_always_redirects_witness :
  let w := online sample_db [row "1" "A" "X"; row "-" "B" "Y"] in
  Forall storable (fetched (melon_answer w)) /\
  exists w1 evs,
    serve update_chart_db w = (Return (redirect "melon_chart"), w1) /\
    trace w1 = trace w ++ melon_request :: evs /\
    Forall (fun ev => forall url headers timeout, ev <> HttpGet url headers timeout) evs /\
    search_count (disk w1) = search_count (disk w).
Proof.
  assert (H : Forall storable
                (fetched (melon_answer (online sample_db [row "1" "A" "X"; row "-" "B" "Y"])))).
  { repeat constructor; by apply (bool_decide_unpack _). }
  split; [exact H|].
  exact (refresh_always_redirects _ H).
Defined.

(** X9.  A refresh whose fetch returns entries (storable ones) replaces the
    snapshot by them: afterwards the store holds exactly the entries that are the last of
    their rank in the fetched list, one row per rank, nothing of the previous
    snapshot; and the chart page shows them in strictly ascending order of
    rank. *)
Theorem refresh_replaces_the_snapshot (w : world) (chart : list ChartEntry) :
  (fetch_melon_chart w).1 = Return chart ->
  chart <> [] ->
  Forall storable chart ->
  exists w1 shown,
    serve update_chart_db w = (Return (redirect "melon_chart"), w1) /\
    (forall e, e ∈ snapshot (disk w1) <-> last_with_rank chart e) /\
    NoDup (map rank (snapshot (disk w1))) /\
    shows_chart (serve melon_chart w1).1 shown /\
    shown ≡ₚ snapshot (disk w1) /\
    StronglySorted rank_lt shown.
Proof.
  rewrite fetch_melon_chart_run. cbn [fst]. intros [= Hf] Hne _.
  rewrite update_chart_db_run, Hf. destruct chart as [|e chart]; [done|].
  set (d1 := foldl replace_into (delete_all (disk w)) (e :: chart)).
  assert (Hsnap : snapshot d1 = foldl upsert_entry [] (e :: chart)).
  { unfold d1. by rewrite snapshot_foldl, snapshot_delete_all. }
  assert (Hnd : NoDup (map rank (snapshot d1))).
  { rewrite Hsnap. apply foldl_upsert_NoDup. constructor. }
  eexists _, (map entry_of_row (merge_sort by_ranking (melon_chart_data d1))).
  split; [reflexivity|]. cbn [disk set_db].
  split.
  { intros x. rewrite Hsnap, elem_of_foldl_upsert. split; [|by left].
    intros [H|[H _]]; [done|]. by apply elem_of_nil in H. }
  split; [exact Hnd|].
  rewrite melon_chart_run. cbn [fst disk set_db].
  pose proof (merge_sort_Permutation by_ranking (melon_chart_data d1)) as Hperm.
  split; [unfold shows_chart; by rewrite map_entry_sqlrow|].
  split; [by apply Permutation_map|].
  apply strictly_sorted_rows.
  - apply (StronglySorted_merge_sort by_ranking).
  - rewrite (Permutation_map mc_ranking Hperm).
    unfold snapshot in Hnd. by rewrite map_map in Hnd.
Qed.

(** A page that repeats rank 1, fetched over the sample snapshot. *)
Lemma refresh_replaces_the_snapshot_witness :
  let w := online sample_db [row "2" "B" "Y"; row "1" "A" "X"; row "1" "C" "Z"] in
  let chart := [entry 2 "B" "Y"; entry 1 "A" "X"; entry 1 "C" "Z"] in
  ((fetch_melon_chart w).1 = Return chart /\ chart <> [] /\ Forall storable chart) /\
  exists w1 shown,
    serve update_chart_db w = (Return (redirect "melon_chart"), w1) /\
    (forall e, e ∈ snapshot (disk w1) <-> last_with_rank chart e) /\
    NoDup (map rank (snapshot (disk w1))) /\
    shows_chart (serve melon_chart w1).1 shown /\
    shown ≡ₚ snapshot (disk w1) /\
    StronglySorted rank_lt shown.
Proof.
  assert (H1 : (fetch_melon_chart
                  (online sample_db [row "2" "B" "Y"; row "1" "A" "X"; row "1" "C" "Z"])).1
               = Return [entry 2 "B" "Y"; entry 1 "A" "X"; entry 1 "C" "Z"])
    by reflexivity.
  assert (H2 : [entry 2 "B" "Y"; entry 1 "A" "X"; entry 1 "C" "Z"] <> []) by done.
  assert (H3 : Forall storable [entry 2 "B" "Y"; entry 1 "A" "X"; entry 1 "C" "Z"]).
  { repeat constructor; by apply (bool_decide_unpack _). }
  split; [by split|].
  exact (refresh_replaces_the_snapshot _ _ H1 H2 H3).
Defined.

(** ** Quoting *)

Lemma N_lor_lt a b n : (a < 2 ^ n)%N -> (b < 2 ^ n)%N -> (N.lor a b < 2 ^ n)%N.
Proof.
  intros Ha Hb. destruct (N.eq_dec (N.lor a b) 0%N) as [E|E]; [rewrite E; lia|].
  apply N.log2_lt_pow2; [lia|]. rewrite N.log2_lor.
  destruct (N.eq_dec a 0%N) as [->|Ha0], (N.eq_dec b 0%N) as [->|Hb0]; [done| | |].
  - rewrite N.max_r by (simpl; lia). apply N.log2_lt_pow2; lia.
  - rewrite N.max_l by (simpl; lia). apply N.log2_lt_pow2; lia.
  - apply N.max_lub_lt; apply N.log2_lt_pow2; lia.
Qed.

Lemma continuation_byte x : (N.lor 0x80 (N.land x 0x3F) < 256)%N.
Proof.
  apply (N_lor_lt _ _ 8); [done|].
  change 0x3F%N with (N.ones 6). rewrite N.land_ones.
  pose proof (N.mod_upper_bound x (2 ^ 6)). simpl in *. lia.
Qed.

Lemma leading_byte tag c k :
  (tag < 256)%N -> (c < 2 ^ (k + 8))%N -> (N.lor tag (N.shiftr c k) < 256)%N.
Proof.
  intros Ht Hc. apply (N_lor_lt _ _ 8); [done|].
  rewrite N.shiftr_div_pow2. apply N.Div0.div_lt_upper_bound.
  by rewrite <- N.pow_add_r.
Qed.

Lemma utf8_encode_char_bytes c :
  (c < 0x110000)%N -> Forall (fun b => (b < 256)%N) (utf8_encode_char c).
Proof.
  intros Hc. unfold utf8_encode_char.
  destruct (N.ltb_spec c 0x80); [repeat constructor; lia|].
  destruct (N.ltb_spec c 0x800).
  { repeat constructor; [|apply continuation_byte].
    apply leading_byte; [done|]. simpl. lia. }
  destruct (N.ltb_spec c 0x10000).
  { repeat constructor; [|apply continuation_byte..].
    apply leading_byte; [done|]. simpl. lia. }
  repeat constructor; [|apply continuation_byte..].
  apply leading_byte; [done|]. simpl. lia.
Qed.

Lemma hex_digit_safe n : (n < 16)%N -> quote_safe (hex_digit n) = true.
Proof.
  intros Hn. unfold hex_digit, quote_safe, in_range.
  destruct (N.ltb_spec n 10).
  - replace ((48 <=? 48 + n) && (48 + n <=? 57))%N with true; [done|].
    symmetry. apply andb_true_iff. split; apply N.leb_le; lia.
  - replace ((65 <=? 55 + n) && (55 + n <=? 90))%N with true; [by rewrite orb_true_r|].
    symmetry. apply andb_true_iff. split; apply N.leb_le; lia.
Qed.

Lemma quote_bytes bs :
  Forall (fun b => (b < 256)%N) bs ->
  Forall url_char
    (flat_map (fun b => if quote_safe b then [b]
                        else [percent; hex_digit (b / 16); hex_digit (b mod 16)]%N) bs).
Proof.
  induction 1 as [|b bs Hb _ IH]; [constructor|]. simpl.
  apply Forall_app. split; [|exact IH].
  destruct (quote_safe b) eqn:E.
  - apply Forall_singleton. by left.
  - apply Forall_cons. split; [by right|].
    apply Forall_cons. split.
    { left. apply hex_digit_safe. apply N.Div0.div_lt_upper_bound. lia. }
    apply Forall_singleton. left. apply hex_digit_safe. apply N.mod_upper_bound. lia.
Qed.

Lemma scalar_value_code_point c : scalar_value c -> (c < 0x110000)%N.
Proof. unfold scalar_value. lia. Qed.

Lemma quote_safe_ascii c : quote_safe c = true -> (c < 0x80)%N.
Proof.
  unfold quote_safe, in_range. intros H.
  repeat (apply orb_true_iff in H as [H|H]);
    try (apply andb_true_iff in H as [_ H]; apply N.leb_le in H; lia);
    apply N.eqb_eq in H; lia.
Qed.

Lemma quote_safe_fixed s : Forall (fun c => quote_safe c = true) s -> quote s = s.
Proof.
  unfold quote. induction 1 as [|c s Hc _ IH]; [done|]. simpl.
  rewrite flat_map_app, IH. unfold utf8_encode_char.
  pose proof (quote_safe_ascii c Hc) as Hlt. apply N.ltb_lt in Hlt. rewrite Hlt.
  simpl. by rewrite Hc.
Qed.

(** ** One order for the chart and its searches *)

Lemma NoDup_map_inj {A B} (f : A -> B) l x y :
  NoDup (map f l) -> x ∈ l -> y ∈ l -> f x = f y -> x = y.
Proof.
  induction l as [|z l IH]; simpl; [by intros _ ?%elem_of_nil|].
  intros [Hz Hnd]%NoDup_cons [->|Hx]%elem_of_cons [->|Hy]%elem_of_cons Heq; [done| | |by apply IH].
  - exfalso. apply Hz. rewrite Heq. apply list_elem_of_In, in_map, list_elem_of_In, Hy.
  - exfalso. apply Hz. rewrite <- Heq. apply list_elem_of_In, in_map, list_elem_of_In, Hx.
Qed.

Lemma sorted_rows_unique l1 l2 :
  NoDup (map mc_ranking l1) ->
  StronglySorted by_ranking l1 -> StronglySorted by_ranking l2 ->
  l1 ≡ₚ l2 -> l1 = l2.
Proof.
  intros Hnd Hs1 Hs2 E. apply (StronglySorted_unique_strong by_ranking); try done.
  intros x1 x2 H1 H2 H12 H21.
  assert (x2 ∈ l1) as H2' by (by rewrite E).
  apply (NoDup_map_inj mc_ranking l1); try done.
  unfold by_ranking in *. lia.
Qed.

Lemma like_all_percent p s : p <> [] -> Forall (fun c => c = percent) p -> like p s = true.
Proof.
  intros Hne Hp. revert s. induction Hp as [|c p -> Hp IH]; [done|]. intros s.
  destruct p as [|c' p'].
  - apply like_only_percent.
  - apply like_percent. exists [], s. split; [done|]. by apply IH.
Qed.

Lemma StronglySorted_filter {A} (R : relation A) (P : A -> Prop)
    `{!forall x, Decision (P x)} l :
  StronglySorted R l -> StronglySorted R (filter P l).
Proof.
  induction 1 as [|x l Hs IH Hall]; [constructor|].
  destruct (decide (P x)).
  - rewrite filter_cons_True by done. constructor; [exact IH|].
    apply Forall_forall. intros y [_ Hy]%list_elem_of_filter.
    rewrite Forall_forall in Hall. by apply Hall.
  - by rewrite filter_cons_False.
Qed.

Lemma merge_sort_filter (P : melon_chart_data_row -> Prop) `{!forall x, Decision (P x)} rows :
  NoDup (map mc_ranking rows) ->
  merge_sort by_ranking (filter P rows) = filter P (merge_sort by_ranking rows).
Proof.
  intros Hnd. apply sorted_rows_unique.
  - rewrite (Permutation_map mc_ranking (merge_sort_Permutation by_ranking (filter P rows))).
    by apply NoDup_map_filter.
  - apply (StronglySorted_merge_sort by_ranking).
  - apply StronglySorted_filter, (StronglySorted_merge_sort by_ranking).
  - by rewrite !merge_sort_Permutation.
Qed.

(** ** What a fetch returns *)

Lemma title_text_trimmed row : trimmed (title_text row).
Proof.
  unfold title_text. destruct (title_el row); [apply strip_trimmed|].
  change (py "제목 없음") with (strip (py "제목 없음")). apply strip_trimmed.
Qed.

Lemma artist_text_trimmed row : trimmed (artist_text row).
Proof.
  unfold artist_text. destruct (artist_el row); [apply strip_trimmed|].
  change (py "아티스트 없음") with (strip (py "아티스트 없음")). apply strip_trimmed.
Qed.

Lemma fetched_entry_ok answer : Forall entry_ok (fetched answer).
Proof.
  unfold fetched. destruct answer as [r|e]; [|constructor].
  destruct (negb _); [constructor|].
  destruct (soup_select r) as [rows|e]; [|constructor].
  destruct (parse_rows rows []) as [chart|e] eqn:Hp; [|constructor].
  apply parse_rows_Return in Hp as ->.
  apply Forall_map, Forall_forall. intros row _.
  split; [simpl; lia|]. split; [apply title_text_trimmed|apply artist_text_trimmed].
Qed.

Lemma last_with_rank_elem_of chart e : last_with_rank chart e -> e ∈ chart.
Proof. intros (pre & post & -> & _). apply elem_of_app. right. left. Qed.

(** ** The keyword ranking *)

Lemma merge_sort_orders_by_count : orders_by_count (merge_sort by_count).
Proof.
  intros l. split; [apply merge_sort_Permutation|].
  apply (StronglySorted_merge_sort by_count).
Qed.

(** ** The artists of the ranking *)

Lemma songs_by_entry_pos e entries : e ∈ entries -> 0 < songs_by (artist e) entries.
Proof.
  intros He. unfold songs_by.
  assert (Hin : e ∈ filter (fun x => artist x = artist e) entries)
    by (by apply list_elem_of_filter).
  destruct (filter _ entries); [by apply elem_of_nil in Hin|simpl; lia].
Qed.

(** ** Blanks around a query *)

Lemma lstrip_with_app_blank sp pre s :
  Forall (fun c => sp c = true) pre -> lstrip_with sp (pre ++ s) = lstrip_with sp s.
Proof. induction 1 as [|c pre Hc _ IH]; simpl; [done|by rewrite Hc]. Qed.

Lemma strip_with_app_blank sp pre s post :
  Forall (fun c => sp c = true) pre -> Forall (fun c => sp c = true) post ->
  strip_with sp (pre ++ s ++ post) = strip_with sp s.
Proof.
  intros Hpre Hpost. unfold strip_with. rewrite (lstrip_with_app_blank sp pre _ Hpre).
  f_equal. induction s as [|c s IH]; cbn [app lstrip_with].
  - by rewrite (lstrip_with_blank sp post Hpost).
  - destruct (sp c); [exact IH|].
    change (c :: s ++ post) with ((c :: s) ++ post).
    rewrite rev_app_distr. apply lstrip_with_app_blank.
    apply Forall_forall. intros x Hx. rewrite Forall_forall in Hpost. apply Hpost.
    apply list_elem_of_In. by apply list_elem_of_In, in_rev in Hx.
Qed.

(** X10.  What [quote] makes of a text is written in the unreserved
    characters, the slash and the percent sign alone, so that no character
    of the query can end the parameter it is put in or start another; a text
    of unreserved characters and slashes is left as it is. *)
Theorem quote_escapes_the_query (s : str) :
  text s ->
  Forall url_char (quote s) /\
  (forall c, c ∈ quote s ->
     c <> 38%N /\ c <> 61%N /\ c <> 35%N /\ c <> 63%N /\ c <> 32%N /\ (c < 128)%N) /\
  (Forall (fun c => quote_safe c = true) s -> quote s = s).
Proof.
  intros Hs.
  assert (H : Forall url_char (quote s)).
  { apply quote_bytes. apply Forall_flat_map. eapply Forall_impl; [exact Hs|].
    intros c Hc. apply utf8_encode_char_bytes, scalar_value_code_point, Hc. }
  split; [exact H|]. split; [|apply quote_safe_fixed].
  intros c Hc. rewrite Forall_forall in H. destruct (H c Hc) as [Hsafe| ->]; [|done].
  pose proof (quote_safe_ascii c Hsafe).
  repeat split; try lia; by intros ->.
Qed.

(** A query that tries to add a parameter. *)
Lemma quote_escapes_the_query_witness :
  text (py "a&display=100 #멜론") /\
  Forall url_char (quote (py "a&display=100 #멜론")) /\
  quote (py "a&display=100 #멜론") = py "a%26display%3D100%20%23%EB%A9%9C%EB%A1%A0".
Proof.
  assert (H : text (py "a&display=100 #멜론")) by (by apply (bool_decide_unpack _)).
  split; [exact H|].
  split; [exact (proj1 (quote_escapes_the_query _ H))|reflexivity].
Defined.

(** X11.  With unique ranks in the store, on operands that LIKE reads as
    they are written and a pattern within the length it takes, the artist
    search shows what the chart page shows, less the entries whose artist
    does not match, in the order of the chart page. *)
Theorem artist_search_within_the_chart (w : world) (q : option str) :
  like_text (arg_or_empty q) ->
  utf8_length ([percent] ++ arg_or_empty q ++ [percent]) <= like_pattern_limit ->
  Forall (fun e => like_text (artist e)) (snapshot (disk w)) ->
  arg_or_empty q <> [] ->
  NoDup (map rank (snapshot (disk w))) ->
  exists shown,
    shows_chart (serve melon_chart w).1 shown /\
    (serve (artist_search q) w).1
    = Return (render_template
                (artist_search_html (arg_or_empty q)
                   (map entry_sqlrow
                      (filter (fun e => like ([percent] ++ arg_or_empty q ++ [percent])
                                          (artist e) = true) shown)))).
Proof.
  intros _ _ _ Hq Hnd. unfold snapshot in Hnd. rewrite map_map in Hnd.
  exists (map entry_of_row (merge_sort by_ranking (melon_chart_data (disk w)))).
  rewrite melon_chart_run, artist_search_run. rewrite bool_decide_true by done. cbn [fst].
  split; [unfold shows_chart; by rewrite map_entry_sqlrow|].
  rewrite merge_sort_filter by exact Hnd.
  by rewrite map_entry_sqlrow, filter_like_entries.
Qed.

(** A search for "x" on the sample snapshot. *)
Lemma artist_search_within_the_chart_witness :
  let w := offline sample_db in
  let q := Some (py "x") in
  (like_text (arg_or_empty q) /\
   utf8_length ([percent] ++ arg_or_empty q ++ [percent]) <= like_pattern_limit /\
   Forall (fun e => like_text (artist e)) (snapshot (disk w)) /\
   arg_or_empty q <> [] /\ NoDup (map rank (snapshot (disk w)))) /\
  exists shown,
    shows_chart (serve melon_chart w).1 shown /\
    (serve (artist_search q) w).1
    = Return (render_template
                (artist_search_html (arg_or_empty q)
                   (map entry_sqlrow
                      (filter (fun e => like ([percent] ++ arg_or_empty q ++ [percent])
                                          (artist e) = true) shown)))).
Proof.
  assert (H0 : like_text (arg_or_empty (Some (py "x")))) by (by apply (bool_decide_unpack _)).
  assert (Hb : utf8_length ([percent] ++ arg_or_empty (Some (py "x")) ++ [percent])
               <= like_pattern_limit) by (by apply (bool_decide_unpack _)).
  assert (Ha : Forall (fun e => like_text (artist e)) (snapshot (disk (offline sample_db))))
    by (by apply (bool_decide_unpack _)).
  assert (H1 : arg_or_empty (Some (py "x")) <> []) by (by vm_compute).
  assert (H2 : NoDup (map rank (snapshot (disk (offline sample_db)))))
    by (by apply (bool_decide_unpack _)).
  split; [by repeat split|].
  exact (artist_search_within_the_chart (offline sample_db) (Some (py "x")) H0 Hb Ha H1 H2).
Defined.

(** X12.  A query made of percent signs alone (the pattern within the
    length LIKE takes) matches every artist: the artist search then shows
    the whole chart, as the chart page does. *)
Theorem wildcard_query_lists_the_chart (w : world) (q : option str) :
  arg_or_empty q <> [] ->
  Forall (fun c => c = percent) (arg_or_empty q) ->
  utf8_length ([percent] ++ arg_or_empty q ++ [percent]) <= like_pattern_limit ->
  exists shown,
    shows_chart (serve melon_chart w).1 shown /\
    (serve (artist_search q) w).1
    = Return (render_template
                (artist_search_html (arg_or_empty q) (map entry_sqlrow shown))).
Proof.
  intros Hq Hp _.
  exists (map entry_of_row (merge_sort by_ranking (melon_chart_data (disk w)))).
  rewrite melon_chart_run, artist_search_run. rewrite bool_decide_true by done. cbn [fst].
  split; [unfold shows_chart; by rewrite map_entry_sqlrow|].
  rewrite filter_all; [by rewrite map_entry_sqlrow|].
  apply Forall_forall. intros r _. apply like_all_percent; [done|].
  apply Forall_cons. split; [done|]. apply Forall_app. split; [exact Hp|].
  by apply Forall_singleton.
Qed.

(** The query "%%" between blanks. *)
Lemma wildcard_query_lists_the_chart_witness :
  let w := offline sample_db in
  let q := Some (py " %% ") in
  (arg_or_empty q <> [] /\ Forall (fun c => c = percent) (arg_or_empty q) /\
   utf8_length ([percent] ++ arg_or_empty q ++ [percent]) <= like_pattern_limit) /\
  exists shown,
    shows_chart (serve melon_chart w).1 shown /\
    (serve (artist_search q) w).1
    = Return (render_template
                (artist_search_html (arg_or_empty q) (map entry_sqlrow shown))).
Proof.
  assert (H1 : arg_or_empty (Some (py " %% ")) <> []) by (by vm_compute).
  assert (H2 : Forall (fun c => c = percent) (arg_or_empty (Some (py " %% "))))
    by (by repeat constructor).
  assert (H3 : utf8_length ([percent] ++ arg_or_empty (Some (py " %% ")) ++ [percent])
               <= like_pattern_limit) by (by apply (bool_decide_unpack _)).
  split; [by split|].
  exact (wildcard_query_lists_the_chart (offline sample_db) (Some (py " %% ")) H1 H2 H3).
Defined.

(** X13.  The entries a fetch returns are well formed whatever the page
    holds: a rank that is not negative, a title and an artist without blanks
    at their ends.  A refresh therefore keeps a snapshot of such entries. *)
Theorem fetched_entries_are_well_formed (w : world) :
  Forall entry_ok (fetched (melon_answer w)) /\
  (fetch_melon_chart w).1 = Return (fetched (melon_answer w)) /\
  (Forall entry_ok (snapshot (disk w)) ->
   Forall entry_ok (snapshot (disk (serve update_chart_db w).2))).
Proof.
  pose proof (fetched_entry_ok (melon_answer w)) as Hok.
  split; [exact Hok|]. split; [by rewrite fetch_melon_chart_run|].
  intros Hsnap. rewrite update_chart_db_run.
  destruct (fetched (melon_answer w)) as [|e chart]; [done|]. cbn [snd disk set_db].
  rewrite snapshot_foldl, snapshot_delete_all.
  apply Forall_forall. intros x Hx. apply elem_of_foldl_upsert in Hx as [Hx|[Hx _]].
  - rewrite Forall_forall in Hok. by apply Hok, last_with_rank_elem_of.
  - by apply elem_of_nil in Hx.
Qed.

(** X14.  The keyword ranking, whichever order the engine gives to records
    of equal count: at most ten rows, each of a stored record, in the order
    of descending count; a record that is left out has no higher count than
    any that is shown; with ten records or fewer all are shown; and no
    keyword is shown twice when the stored keywords are unique. *)
Theorem top_keywords_are_the_top
    (sort : list search_count_row -> list search_count_row) (d : Database) :
  orders_by_count sort ->
  exists shown,
    top_keywords sort d = map keyword_sqlrow shown /\
    (length shown <= 10)%nat /\
    (forall r, r ∈ shown -> r ∈ search_count d) /\
    StronglySorted by_count shown /\
    (forall r s, r ∈ search_count d -> r ∉ shown -> s ∈ shown -> sc_count r <= sc_count s) /\
    ((length (search_count d) <= 10)%nat -> shown ≡ₚ search_count d) /\
    (NoDup (map sc_keyword (search_count d)) -> NoDup (map sc_keyword shown)).
Proof.
  intros Hsort. destruct (Hsort (search_count d)) as [Hperm Hsorted].
  exists (take 10 (sort (search_count d))).
  pose proof (take_drop 10 (sort (search_count d))) as Hsplit.
  rewrite <- Hsplit in Hsorted.
  split; [unfold top_keywords; by rewrite (limit_rows_nat 10)|].
  split; [rewrite length_take; lia|].
  split.
  { intros r Hr. rewrite <- Hperm, <- Hsplit. apply elem_of_app. by left. }
  split; [by apply StronglySorted_app_1_l in Hsorted|].
  split.
  { intros r s Hr Hnot Hs. rewrite <- Hperm, <- Hsplit in Hr.
    apply elem_of_app in Hr as [Hr|Hr]; [done|].
    apply (StronglySorted_app_1_elem_of by_count _ _ s r Hsorted Hs Hr). }
  split.
  { intros Hlen. rewrite take_ge; [done|]. by rewrite Hperm. }
  intros Hnd. rewrite <- (Permutation_map sc_keyword Hperm), <- Hsplit, map_app in Hnd.
  by apply NoDup_app in Hnd as [Hnd _].
Qed.

(** Twelve keywords, searched once or twice, under the stable sort. *)
Lemma top_keywords_are_the_top_witness :
  let d := disk (blog_requests
                   (map (fun k => Some (py k))
                      ["a"; "b"; "c"; "d"; "e"; "f"; "g"; "h"; "i"; "j"; "k"; "l"; "k"; "l"]%string)
                   (offline init_db)) in
  orders_by_count (merge_sort by_count) /\
  exists shown,
    top_keywords (merge_sort by_count) d = map keyword_sqlrow shown /\
    (length shown <= 10)%nat.
Proof.
  split; [exact merge_sort_orders_by_count|].
  destruct (top_keywords_are_the_top (merge_sort by_count)
              (disk (blog_requests
                   (map (fun k => Some (py k))
                      ["a"; "b"; "c"; "d"; "e"; "f"; "g"; "h"; "i"; "j"; "k"; "l"; "k"; "l"]%string)
                   (offline init_db)))
              merge_sort_orders_by_count) as (shown & H1 & H2 & _).
  exists shown. split; [exact H1|exact H2].
Defined.

(** X15.  The artist ranking page shows at most ten artists, each with the
    number of its entries in the snapshot, and they are the top ones: an
    artist of the snapshot that is left out has no more entries than any
    artist shown; with ten artists or fewer every artist is shown. *)
Theorem artist_ranking_is_the_top (w : world) :
  exists shown,
    (serve artist_ranking w).1
    = Return (render_template (artist_ranking_html (map artist_count_sqlrow shown))) /\
    (length shown <= 10)%nat /\
    (forall a n, (a, n) ∈ shown -> n = songs_by a (snapshot (disk w))) /\
    (forall e b n,
       e ∈ snapshot (disk w) -> artist e ∉ map fst shown -> (b, n) ∈ shown ->
       songs_by (artist e) (snapshot (disk w)) <= n) /\
    ((length (remove_dups (map artist (snapshot (disk w)))) <= 10)%nat ->
     forall e, e ∈ snapshot (disk w) -> artist e ∈ map fst shown).
Proof.
  set (full := merge_sort by_count_then_artist (group_by_artist (melon_chart_data (disk w)))).
  pose proof (merge_sort_Permutation by_count_then_artist
                (group_by_artist (melon_chart_data (disk w)))) as Hperm.
  fold full in Hperm.
  pose proof (StronglySorted_merge_sort by_count_then_artist
                (group_by_artist (melon_chart_data (disk w)))) as Hsorted.
  fold full in Hsorted.
  pose proof (take_drop 10 full) as Hsplit.
  assert (Hfull : forall e, e ∈ snapshot (disk w) ->
                            (artist e, songs_by (artist e) (snapshot (disk w))) ∈ full).
  { intros e He. rewrite Hperm. apply elem_of_group_by_artist.
    split; [by apply songs_by_entry_pos|done]. }
  exists (take 10 full).
  split; [rewrite artist_ranking_run; cbn [fst]; by rewrite (limit_rows_nat 10)|].
  split; [rewrite length_take; lia|].
  split.
  { intros a n Hin. apply (elem_of_group_by_artist (melon_chart_data (disk w))).
    rewrite <- Hperm, <- Hsplit. apply elem_of_app. by left. }
  split.
  { intros e b n He Hout Hb. pose proof (Hfull e He) as Hin.
    rewrite <- Hsplit in Hin, Hsorted. apply elem_of_app in Hin as [Hin|Hin].
    - exfalso. apply Hout. apply list_elem_of_In, in_map_iff.
      exists (artist e, songs_by (artist e) (snapshot (disk w))).
      split; [done|by apply list_elem_of_In].
    - pose proof (StronglySorted_app_1_elem_of by_count_then_artist _ _ _ _
                    Hsorted Hb Hin) as Hord.
      unfold by_count_then_artist in Hord. simpl in Hord. lia. }
  intros Hlen e He.
  rewrite take_ge.
  - apply list_elem_of_In, in_map_iff.
    exists (artist e, songs_by (artist e) (snapshot (disk w))).
    split; [done|by apply list_elem_of_In, Hfull].
  - rewrite Hperm. unfold group_by_artist. rewrite length_map.
    unfold snapshot in Hlen. by rewrite map_map in Hlen.
Qed.

(** X16.  Blanks around a query do not count: a request of the blog route
    or of the artist search answers and does the same with them as without
    them, and a missing query is an empty one. *)
Theorem blanks_around_a_query_are_dropped (w : world) (pre s post : str) :
  Forall (fun c => isspace_char c = true) pre ->
  Forall (fun c => isspace_char c = true) post ->
  serve (blog (Some (pre ++ s ++ post))) w = serve (blog (Some s)) w /\
  serve (artist_search (Some (pre ++ s ++ post))) w = serve (artist_search (Some s)) w /\
  serve (blog None) w = serve (blog (Some [])) w /\
  serve (artist_search None) w = serve (artist_search (Some [])) w.
Proof.
  intros Hpre Hpost.
  assert (H : arg_or_empty (Some (pre ++ s ++ post)) = arg_or_empty (Some s)).
  { unfold arg_or_empty, strip. simpl. by apply strip_with_app_blank. }
  unfold blog, artist_search. by rewrite H.
Qed.

(** A tab before the query and a line end after it. *)
Lemma blanks_around_a_query_are_dropped_witness :
  (Forall (fun c => isspace_char c = true) [9%N; 32%N] /\
   Forall (fun c => isspace_char c = true) [13%N; 10%N]) /\
  serve (blog (Some ([9%N; 32%N] ++ py "melon chart" ++ [13%N; 10%N]))) (offline sample_db)
  = serve (blog (Some (py "melon chart"))) (offline sample_db).
Proof.
  assert (H1 : Forall (fun c => isspace_char c = true) [9%N; 32%N]) by (by repeat constructor).
  assert (H2 : Forall (fun c => isspace_char c = true) [13%N; 10%N]) by (by repeat constructor).
  split; [by split|].
  exact (proj1 (blanks_around_a_query_are_dropped (offline sample_db) _ (py "melon chart") _
                  H1 H2)).
Defined.
